(** * Money Lens dashboard: client-side synchronisation and query engine

    A shallow embedding of the stateful core of the React front end
    ([frontend/src/App.tsx], [components/TransactionTable],
    [components/ChatInterface], the API helper modules) together with
    the properties its specification states about it.

    Conventions of the embedding.
    - JavaScript strings are [string]; numbers that the code only counts
      or indexes with are [Z]; decimal amounts are [Q] and are never
      computed with.
    - An optional property [p?: T] is an [option T]; JavaScript
      truthiness of such a property is written out ([truthy_str],
      [truthy_num]).
    - React state is an explicit record; a handler is a computation in
      the monad [M], which threads the state and a log of the requests
      that were issued, and which can complete abruptly with a thrown
      value, as [async] functions with [try/catch/finally] do.
    - What the backend answers is an input of each handler. *)

From Stdlib Require Import List String Ascii ZArith QArith Bool Lia.
From Stdlib Require Import Permutation Sorted RelationClasses.
Import ListNotations.

Local Open Scope string_scope.
Local Open Scope Z_scope.

(** ** JavaScript primitives used by the code *)

Module JS.

(** Truthiness of an optional string: [undefined] and [''] are falsy. *)
Definition truthy_str (x : option string) : option string :=
  match x with
  | Some EmptyString => None
  | Some s => Some s
  | None => None
  end.

(** Truthiness of an optional number: [undefined] and [0] are falsy. *)
Definition truthy_num (x : option Z) : option Z :=
  match x with
  | Some 0 => None
  | Some n => Some n
  | None => None
  end.

(** [a || b] on an optional string with a string default. *)
Definition or_else (x : option string) (d : string) : string :=
  match truthy_str x with
  | Some s => s
  | None => d
  end.

(** [s.startsWith(p)] *)
Fixpoint startsWith (s p : string) : bool :=
  match p, s with
  | EmptyString, _ => true
  | String c p', String d s' => Ascii.eqb c d && startsWith s' p'
  | String _ _, EmptyString => false
  end.

(** [s.includes(sub)]: [sub] occurs in [s] at some position. *)
Fixpoint includes (s sub : string) : bool :=
  startsWith s sub ||
  match s with
  | EmptyString => false
  | String _ s' => includes s' sub
  end.

Definition is_space (c : ascii) : bool :=
  let n := nat_of_ascii c in
  ((9 <=? n) && (n <=? 13))%nat || (n =? 32)%nat.

Fixpoint trimStart (s : string) : string :=
  match s with
  | String c s' => if is_space c then trimStart s' else s
  | EmptyString => EmptyString
  end.

Fixpoint trimEnd (s : string) : string :=
  match s with
  | String c s' =>
      match trimEnd s' with
      | EmptyString => if is_space c then EmptyString else String c EmptyString
      | r => String c r
      end
  | EmptyString => EmptyString
  end.

(** [s.trim()] on the ASCII white space characters only. The platform
    function also strips the Unicode white space; the handlers take it
    as a parameter, and this one serves at sample inputs that are
    ASCII. *)
Definition trim_ascii (s : string) : string := trimEnd (trimStart s).

(** [l.slice(start, end)], with the relative indexing of negative
    arguments and the clamping that [Array.prototype.slice] does. *)
Definition slice {A : Type} (l : list A) (start end_ : Z) : list A :=
  let len := Z.of_nat (List.length l) in
  let k := if start <? 0 then Z.max (len + start) 0 else Z.min start len in
  let final := if end_ <? 0 then Z.max (len + end_) 0 else Z.min end_ len in
  firstn (Z.to_nat (final - k)) (skipn (Z.to_nat k) l).

(** [Math.ceil(a / b)] on integers, [b <> 0]. *)
Definition ceil_div (a b : Z) : Z := - ((- a) / b).

Section Sort.
Context {A : Type}.
(** The comparator: negative when its first argument goes first; [None]
    is a [NaN] result, which the sort takes as [+0]. *)
Variable cmp : A -> A -> option Z.

Definition sort_compare (x y : A) : Z :=
  match cmp x y with
  | Some v => v
  | None => 0
  end.

Fixpoint insert (x : A) (l : list A) : list A :=
  match l with
  | [] => [x]
  | y :: l' => if sort_compare x y <=? 0 then x :: l else y :: insert x l'
  end.

(** [l.sort(cmp)]: a stable sort, as ECMAScript requires: elements that
    compare equal keep the order they had. With a consistent comparator
    the result is fixed by the language, and this is it. With an
    inconsistent one (here: when some date does not parse) the order is
    left to the engine and need not be the one that insertion from the
    right gives: what is stated about the order of a sorted list is
    stated for lists whose dates parse. *)
Definition sort (l : list A) : list A := fold_right insert [] l.

(** The comparator lets its first argument stand before the second. *)
Definition before (x y : A) : Prop := sort_compare x y <= 0.
End Sort.

(** [s.toLowerCase()] on the letters A-Z; every other character is kept. *)
Definition lower_ascii (c : ascii) : ascii :=
  let n := nat_of_ascii c in
  if ((65 <=? n) && (n <=? 90))%nat then ascii_of_nat (n + 32) else c.

Fixpoint toLowerCase_ascii (s : string) : string :=
  match s with
  | EmptyString => EmptyString
  | String c s' => String (lower_ascii c) (toLowerCase_ascii s')
  end.

End JS.

(** ** Data model *)

Module Model.

(** [interface Transaction] of [App.tsx]; [TransactionTable] declares
    the same shape without [currency]. *)
Record Transaction := {
  date : string;
  description : string;
  amount : Q;
  type : string;
  category : option string;
  currency : option string
}.

Inductive Role := user | bot.

(** [interface Message] *)
Record Message := {
  role : Role;
  content : string
}.

(** The object that the summary state holds. *)
Record SummaryMetrics := {
  total_income : Q;
  total_expense : Q;
  net_balance : Q;
  transaction_count : Z
}.

Record Trend := {
  income : Q;
  expense : Q
}.

Record Merchant := {
  name : string;
  value : Q
}.

(** [Record<string, number>] and [Record<string, {income, expense}>]:
    objects read through [Object.entries], so kept as their entries in
    order; [{}] is [[]]. *)
Definition Spending := list (string * Q).
Definition Trends := list (string * Trend).

End Model.

(** ** Transaction table: filter, sort, paginate *)

Module TransactionTable.
Import Model.

Inductive FilterType := all | credit | debit.

Inductive SortOrder := asc | desc.

Definition filterType_string (f : FilterType) : string :=
  match f with
  | all => "all"
  | credit => "credit"
  | debit => "debit"
  end.

(** [TransactionTableProps]; the currency prop only reaches the markup. *)
Record Props := {
  transactions : list Transaction;
  limit : option Z;
  pageSize : option Z
}.

(** The [useState] cells that the derived views read. *)
Record State := {
  search : string;
  filterType : FilterType;
  sortOrder : SortOrder;
  currentPage : Z
}.

Definition initial : State :=
  {| search := ""; filterType := all; sortOrder := desc; currentPage := 1 |}.

Section Engine.
(** [String.prototype.toLowerCase] and [new Date(s).getTime()] are taken
    from the platform; [getTime] is [None] for a date that does not
    parse ([NaN]). *)
Variable toLowerCase : string -> string.
Variable getTime : string -> option Z.

Definition matchesSearch (search : string) (t : Transaction) : bool :=
  JS.includes (toLowerCase (description t)) (toLowerCase search)
  || JS.includes
       (JS.or_else (option_map toLowerCase (category t)) "")
       (toLowerCase search).

Definition matchesType (filterType : FilterType) (t : Transaction) : bool :=
  match filterType with
  | all => true
  | f => String.eqb (type t) (filterType_string f)
  end.

(** The callback of [transactions.filter]. *)
Definition keep (search : string) (filterType : FilterType)
    (t : Transaction) : bool :=
  matchesSearch search t && matchesType filterType t.

(** The comparator of [result.sort]: a difference of two time stamps,
    [NaN] as soon as one of them is. Time stamps are integers below
    2^53 in magnitude, so the sign of the floating-point difference is
    the sign of the integer difference. *)
Definition byDate (sortOrder : SortOrder) (a b : Transaction) : option Z :=
  match getTime (date a), getTime (date b) with
  | Some dateA, Some dateB =>
      Some (match sortOrder with
            | desc => dateB - dateA
            | asc => dateA - dateB
            end)
  | _, _ => None
  end.

Definition filterSort (transactions : list Transaction) (search : string)
    (filterType : FilterType) (sortOrder : SortOrder) : list Transaction :=
  let result := filter (keep search filterType) transactions in
  JS.sort (byDate sortOrder) result.

Definition filteredTransactions (p : Props) (s : State) : list Transaction :=
  filterSort (transactions p) (search s) (filterType s) (sortOrder s).

Definition paginatedTransactions (p : Props) (s : State) : list Transaction :=
  let filtered := filteredTransactions p s in
  match JS.truthy_num (limit p) with
  | Some limit => JS.slice filtered 0 limit
  | None =>
      match JS.truthy_num (pageSize p) with
      | Some pageSize =>
          let start := (currentPage s - 1) * pageSize in
          JS.slice filtered start (start + pageSize)
      | None => filtered
      end
  end.

Definition totalPages (p : Props) (s : State) : Z :=
  match JS.truthy_num (pageSize p) with
  | Some pageSize =>
      JS.ceil_div (Z.of_nat (List.length (filteredTransactions p s))) pageSize
  | None => 1
  end.

Definition setCurrentPage (f : Z -> Z) (s : State) : State :=
  {| search := search s; filterType := filterType s;
     sortOrder := sortOrder s; currentPage := f (currentPage s) |}.

Definition handleNextPage (p : Props) (s : State) : State :=
  if currentPage s <? totalPages p s
  then setCurrentPage (fun prev => prev + 1) s
  else s.

Definition handlePrevPage (s : State) : State :=
  if currentPage s >? 1
  then setCurrentPage (fun prev => prev - 1) s
  else s.

Definition toggleSort (s : State) : State :=
  {| search := search s; filterType := filterType s;
     sortOrder := match sortOrder s with desc => asc | asc => desc end;
     currentPage := currentPage s |}.

End Engine.

End TransactionTable.

(** ** Network *)

Module Net.

(** What a [catch] clause can receive. [err instanceof Error] holds of
    [ErrorObj] only. *)
Inductive Thrown :=
| ErrorObj (message : string)
| NotAnError.

(** [interface ApiError] *)
Record ApiError := {
  detail : option string;
  message : option string
}.

(** A response that arrived, by [res.ok], with what [res.json()] gives:
    the parsed body, or the value it rejects with. *)
Inductive HttpResponse (A : Type) :=
| Ok (json : Thrown + A)
| NotOk (json : Thrown + ApiError).

(** How the promise of [fetch] settles: it rejects on a transport
    failure and resolves on any HTTP status. *)
Inductive FetchOutcome (A : Type) :=
| Rejected (e : Thrown)
| Resolved (res : HttpResponse A).

Arguments Ok {A} json.
Arguments NotOk {A} json.
Arguments Rejected {A} e.
Arguments Resolved {A} res.

Definition ok {A : Type} (res : HttpResponse A) : bool :=
  match res with
  | Ok _ => true
  | NotOk _ => false
  end.

Inductive RequestBody :=
| NoBody
| FormData (file : string)
| Json (message : string) (history : list (string * string)) (context : string).

Record Request := {
  url : string;
  method : string;
  body : RequestBody
}.

(** The five answers one run of [fetchData] receives. *)
Record Analytics := {
  summary_res : FetchOutcome Model.SummaryMetrics;
  spending_res : FetchOutcome Model.Spending;
  trends_res : FetchOutcome Model.Trends;
  merchants_res : FetchOutcome (list Model.Merchant);
  transactions_res : FetchOutcome (list Model.Transaction)
}.

Record Metadata := {
  meta_currency : option string
}.

(** The two shapes of a successful upload body: the object with a
    [transactions] property, and the array. *)
Inductive UploadBody :=
| WithTransactions (transactions : list Model.Transaction)
    (metadata : option Metadata)
| BareArray (data : list Model.Transaction).

Record ChatBody := {
  response : string
}.

End Net.

(** ** Module start-up *)

Module Config.
Import Net.

(** [App.tsx], top of the module: the check of [VITE_API_BASE] and the
    constant [API_BASE]. *)
Definition API_BASE (VITE_API_BASE : option string) : Thrown + string :=
  match JS.truthy_str VITE_API_BASE with
  | None => inl (ErrorObj "VITE_API_BASE is not defined in environment variables")
  | Some base => inr (base ++ "/api/v1")
  end.

End Config.

(** ** The centralised API client *)

Module ApiClient.
Import Net.

(** [s.replace(/\/$/, '')] *)
Fixpoint strip_trailing_slash (s : string) : string :=
  match s with
  | EmptyString => EmptyString
  | String c EmptyString => if Ascii.eqb c "/" then EmptyString else s
  | String c s' => String c (strip_trailing_slash s')
  end.

(** [apiClient.baseUrl], after the check of [VITE_API_BASE]. *)
Definition baseUrl (API_BASE_RAW : option string) : Thrown + string :=
  match JS.truthy_str API_BASE_RAW with
  | None =>
      inl (ErrorObj ("VITE_API_BASE must be set to your backend URL. " ++
                     "Example: VITE_API_BASE=https://your-huggingface-space.hf.space"))
  | Some raw => inr (strip_trailing_slash raw ++ "/api/v1")
  end.

(** The message of the error that [get], [post] and [postForm] throw on
    a response that is not ok; [errorData] is [{}] when the body does
    not parse, [status] is the printed status code. *)
Definition errorMessage (json : Thrown + ApiError) (status : string) : string :=
  let errorData :=
    match json with
    | inr d => d
    | inl _ => {| detail := None; message := None |}
    end in
  JS.or_else (detail errorData)
    (JS.or_else (message errorData) ("Request failed: " ++ status)).

End ApiClient.

(** ** Application state and handlers *)

Module App.
Import Model Net.

(** The [useState] cells of [App] that the handlers write, and the value
    of the file input behind [fileInputRef]. *)
Record AppState := mkApp {
  isUploading : bool;
  isLoadingData : bool;
  error : option string;
  transactions : list Transaction;
  messages : list Message;
  currency : string;
  summary : SummaryMetrics;
  spending : Spending;
  trends : Trends;
  merchants : list Merchant;
  fileInputValue : string
}.

(** State of [ChatInterface]; the history is the [messages] of [App]. *)
Record ChatState := mkChat {
  input : string;
  isLoading : bool
}.

(** State of [SnapshotCard]. *)
Record SnapshotState := mkSnapshot {
  snapshot_content : string;
  loading : bool
}.

Record World := mkWorld {
  app : AppState;
  chat : ChatState;
  snapshot : SnapshotState;
  requests : list Request;
  console : list string
}.

Definition initialApp : AppState :=
  {| isUploading := false; isLoadingData := true; error := None;
     transactions := []; messages := []; currency := "USD";
     summary := {| total_income := 0; total_expense := 0;
                   net_balance := 0; transaction_count := 0 |};
     spending := []; trends := []; merchants := [];
     fileInputValue := "" |}.

Definition initialWorld : World :=
  {| app := initialApp;
     chat := {| input := ""; isLoading := false |};
     snapshot := {| snapshot_content := ""; loading := true |};
     requests := []; console := [] |}.

(** *** The monad of handlers *)

Inductive Completion (A : Type) :=
| Normal (a : A)
| Abrupt (e : Thrown).

Arguments Normal {A} a.
Arguments Abrupt {A} e.

Definition M (A : Type) : Type := World -> Completion A * World.

Definition ret {A : Type} (a : A) : M A := fun w => (Normal a, w).

Definition bind {A B : Type} (m : M A) (k : A -> M B) : M B :=
  fun w =>
    match m w with
    | (Normal a, w') => k a w'
    | (Abrupt e, w') => (Abrupt e, w')
    end.

Definition throw {A : Type} (e : Thrown) : M A := fun w => (Abrupt e, w).

Definition gets {A : Type} (f : World -> A) : M A := fun w => (Normal (f w), w).

Definition modify (f : World -> World) : M unit := fun w => (Normal tt, f w).

(** [try { m } catch (err) { handler err }] *)
Definition try_catch {A : Type} (m : M A) (handler : Thrown -> M A) : M A :=
  fun w =>
    match m w with
    | (Abrupt e, w') => handler e w'
    | r => r
    end.

(** [try { m } finally { cleanup }] *)
Definition try_finally {A : Type} (m : M A) (cleanup : M unit) : M A :=
  fun w =>
    match m w with
    | (c, w') =>
        match cleanup w' with
        | (Normal _, w'') => (c, w'')
        | (Abrupt e, w'') => (Abrupt e, w'')
        end
    end.

Notation "x <- m ;; k" := (bind m (fun x => k))
  (at level 61, m at next level, right associativity).
Notation "m ;; k" := (bind m (fun _ => k))
  (at level 61, right associativity).

(** The world a computation leaves, and how it completed. *)
Definition exec {A : Type} (m : M A) (w : World) : World := snd (m w).
Definition completion {A : Type} (m : M A) (w : World) : Completion A := fst (m w).

(** *** Setters *)

Definition onApp (f : AppState -> AppState) : M unit :=
  modify (fun w => mkWorld (f (app w)) (chat w) (snapshot w) (requests w) (console w)).

Definition onChat (f : ChatState -> ChatState) : M unit :=
  modify (fun w => mkWorld (app w) (f (chat w)) (snapshot w) (requests w) (console w)).

Definition onSnapshot (f : SnapshotState -> SnapshotState) : M unit :=
  modify (fun w => mkWorld (app w) (chat w) (f (snapshot w)) (requests w) (console w)).

Definition setIsUploading (v : bool) : M unit :=
  onApp (fun s => mkApp v (isLoadingData s) (error s) (transactions s)
    (messages s) (currency s) (summary s) (spending s) (trends s)
    (merchants s) (fileInputValue s)).

Definition setIsLoadingData (v : bool) : M unit :=
  onApp (fun s => mkApp (isUploading s) v (error s) (transactions s)
    (messages s) (currency s) (summary s) (spending s) (trends s)
    (merchants s) (fileInputValue s)).

Definition setError (v : option string) : M unit :=
  onApp (fun s => mkApp (isUploading s) (isLoadingData s) v (transactions s)
    (messages s) (currency s) (summary s) (spending s) (trends s)
    (merchants s) (fileInputValue s)).

Definition setTransactions (v : list Transaction) : M unit :=
  onApp (fun s => mkApp (isUploading s) (isLoadingData s) (error s) v
    (messages s) (currency s) (summary s) (spending s) (trends s)
    (merchants s) (fileInputValue s)).

(** [setMessages] is also called with an updater, [prev => ...]; a
    plain value is the constant updater. *)
Definition setMessages (f : list Message -> list Message) : M unit :=
  onApp (fun s => mkApp (isUploading s) (isLoadingData s) (error s)
    (transactions s) (f (messages s)) (currency s) (summary s) (spending s)
    (trends s) (merchants s) (fileInputValue s)).

Definition setCurrency (v : string) : M unit :=
  onApp (fun s => mkApp (isUploading s) (isLoadingData s) (error s)
    (transactions s) (messages s) v (summary s) (spending s) (trends s)
    (merchants s) (fileInputValue s)).

Definition setSummary (v : SummaryMetrics) : M unit :=
  onApp (fun s => mkApp (isUploading s) (isLoadingData s) (error s)
    (transactions s) (messages s) (currency s) v (spending s) (trends s)
    (merchants s) (fileInputValue s)).

Definition setSpending (v : Spending) : M unit :=
  onApp (fun s => mkApp (isUploading s) (isLoadingData s) (error s)
    (transactions s) (messages s) (currency s) (summary s) v (trends s)
    (merchants s) (fileInputValue s)).

Definition setTrends (v : Trends) : M unit :=
  onApp (fun s => mkApp (isUploading s) (isLoadingData s) (error s)
    (transactions s) (messages s) (currency s) (summary s) (spending s) v
    (merchants s) (fileInputValue s)).

Definition setMerchants (v : list Merchant) : M unit :=
  onApp (fun s => mkApp (isUploading s) (isLoadingData s) (error s)
    (transactions s) (messages s) (currency s) (summary s) (spending s)
    (trends s) v (fileInputValue s)).

Definition setFileInputValue (v : string) : M unit :=
  onApp (fun s => mkApp (isUploading s) (isLoadingData s) (error s)
    (transactions s) (messages s) (currency s) (summary s) (spending s)
    (trends s) (merchants s) v).

Definition setInput (v : string) : M unit :=
  onChat (fun c => mkChat v (isLoading c)).

Definition setIsLoading (v : bool) : M unit :=
  onChat (fun c => mkChat (input c) v).

Definition setContent (v : string) : M unit :=
  onSnapshot (fun c => mkSnapshot v (loading c)).

Definition setLoading (v : bool) : M unit :=
  onSnapshot (fun c => mkSnapshot (snapshot_content c) v).

Definition console_error (msg : string) : M unit :=
  modify (fun w => mkWorld (app w) (chat w) (snapshot w) (requests w)
                     (console w ++ [msg])).

(** *** Requests *)

(** The call [fetch(url, init)]: the request leaves. *)
Definition issue (url method : string) (body : RequestBody) : M unit :=
  modify (fun w => mkWorld (app w) (chat w) (snapshot w)
                     (requests w ++ [Build_Request url method body])
                     (console w)).

(** [await] of the promise: the response, or the rejection thrown. *)
Definition settle {A : Type} (r : FetchOutcome A) : M (HttpResponse A) :=
  match r with
  | Rejected e => throw e
  | Resolved res => ret res
  end.

(** [await fetch(url, init)] *)
Definition fetch {A : Type} (url method : string) (body : RequestBody)
    (r : FetchOutcome A) : M (HttpResponse A) :=
  issue url method body ;; settle r.

(** [await res.json()] *)
Definition json {A : Type} (parsed : Thrown + A) : M A :=
  match parsed with
  | inr v => ret v
  | inl e => throw e
  end.

(** [if (res.ok) k(await res.json())] *)
Definition when_ok {A : Type} (res : HttpResponse A) (k : A -> M unit) : M unit :=
  match res with
  | Ok parsed => (v <- json parsed ;; k v)
  | NotOk _ => ret tt
  end.

(** *** Handlers *)

Section Handlers.
(** The constant [API_BASE] of [App.tsx], once the module has loaded. *)
Variable API_BASE : string.

Definition fetchData (net : Analytics) : M unit :=
  setIsLoadingData true ;;
  try_finally
    (try_catch
       ((* the five calls of [fetch] build the array, [Promise.all]
           then waits for all of them and rejects if one does *)
        issue (API_BASE ++ "/analytics/summary") "GET" NoBody ;;
        issue (API_BASE ++ "/analytics/spending") "GET" NoBody ;;
        issue (API_BASE ++ "/analytics/trends") "GET" NoBody ;;
        issue (API_BASE ++ "/analytics/merchants") "GET" NoBody ;;
        issue (API_BASE ++ "/analytics/transactions") "GET" NoBody ;;
        summRes <- settle (summary_res net) ;;
        spendRes <- settle (spending_res net) ;;
        trendRes <- settle (trends_res net) ;;
        merchRes <- settle (merchants_res net) ;;
        transRes <- settle (transactions_res net) ;;
        when_ok summRes setSummary ;;
        when_ok spendRes setSpending ;;
        when_ok trendRes setTrends ;;
        when_ok merchRes setMerchants ;;
        when_ok transRes (fun transData =>
          setTransactions transData ;;
          match transData with
          | t0 :: _ =>
              match JS.truthy_str (Model.currency t0) with
              | Some c => setCurrency c
              | None => ret tt
              end
          | [] => ret tt
          end))
       (fun err => console_error "Failed to fetch dashboard data"))
    (setIsLoadingData false).

Definition handleRefresh (r : FetchOutcome SummaryMetrics) : M unit :=
  setIsLoadingData true ;;
  setError None ;;
  try_finally
    (try_catch
       (res <- fetch (API_BASE ++ "/analytics/reset") "POST" NoBody r ;;
        match res with
        | NotOk _ => throw (ErrorObj "Failed to reset dashboard data")
        | Ok parsed =>
            emptySummary <- json parsed ;;
            setSummary emptySummary ;;
            setTransactions [] ;;
            setMessages (fun _ => []) ;;
            setSpending [] ;;
            setTrends [] ;;
            setCurrency "USD"
        end)
       (fun err =>
          console_error "Failed to reset data" ;;
          match err with
          | ErrorObj message => setError (Some message)
          | NotAnError => ret tt
          end))
    (setIsLoadingData false).

(** [file] is [event.target.files?.[0]]. *)
Definition handleFileUpload (file : option string)
    (r : FetchOutcome UploadBody) (net : Analytics) : M unit :=
  match file with
  | None => ret tt
  | Some file =>
      setIsUploading true ;;
      setError None ;;
      try_finally
        (try_catch
           (response <- fetch (API_BASE ++ "/upload") "POST" (FormData file) r ;;
            match response with
            | NotOk parsed =>
                errData <- json parsed ;;
                throw (ErrorObj (JS.or_else (detail errData) "Upload failed"))
            | Ok parsed =>
                data <- json parsed ;;
                match data with
                | WithTransactions transactions metadata =>
                    setTransactions transactions ;;
                    match JS.truthy_str
                            (match metadata with
                             | Some m => meta_currency m
                             | None => None
                             end) with
                    | Some c => setCurrency c
                    | None => ret tt
                    end
                | BareArray data => setTransactions data
                end ;;
                fetchData net
            end)
           (fun err =>
              match err with
              | ErrorObj message => setError (Some message)
              | NotAnError =>
                  setError (Some "An unexpected error occurred during upload.")
              end))
        (setIsUploading false ;; setFileInputValue "")
  end.

(** [fetchSnapshot] of [SnapshotCard], the callback of the timer. *)
Definition fetchSnapshot (r : FetchOutcome ChatBody) : M unit :=
  setLoading true ;;
  try_finally
    (try_catch
       (res <- fetch (API_BASE ++ "/chat") "POST"
                 (Json "Get snapshot" [] "TRANSACTIONS_PAGE") r ;;
        when_ok res (fun data => setContent (response data)))
       (fun err =>
          console_error "Failed to fetch snapshot" ;;
          setContent "Failed to load financial snapshot."))
    (setLoading false).

End Handlers.

(** *** The chat panel *)

Definition fallback : string :=
  "I'm sorry, I'm having trouble connecting to the financial agent right now.".

Definition history_entry (m : Message) : string * string :=
  (match role m with bot => "assistant" | user => "user" end, content m).

(** [sendMessage] of [ChatInterface]; [input], [isLoading] and
    [messages] are the values of the render the handler belongs to, and
    [trim] is [String.prototype.trim], taken from the platform. *)
Definition sendMessage (trim : string -> string) (r : FetchOutcome ChatBody) :
    M unit :=
  input <- gets (fun w => input (chat w)) ;;
  isLoading <- gets (fun w => isLoading (chat w)) ;;
  messages <- gets (fun w => messages (app w)) ;;
  if String.eqb (trim input) "" || isLoading then ret tt
  else
    let userMessage := trim input in
    setInput "" ;;
    setMessages (fun prev =>
      (prev ++ [{| role := user; content := userMessage |}])%list) ;;
    setIsLoading true ;;
    try_finally
      (try_catch
         (response <- fetch "http://localhost:8000/api/v1/chat/" "POST"
                        (Json userMessage (map history_entry messages)
                           "FINANCIAL_AI_PAGE") r ;;
          match response with
          | NotOk _ => throw (ErrorObj "Agent failed to respond.")
          | Ok parsed =>
              data <- json parsed ;;
              setMessages (fun prev =>
                (prev ++ [{| role := bot; content := Net.response data |}])%list)
          end)
         (fun _ =>
            setMessages (fun prev =>
              (prev ++ [{| role := bot; content := fallback |}])%list)))
      (setIsLoading false).

End App.

(** ** Vocabulary of the specification *)

Module Spec.
Import Model Net.

Section Engine.
Variable toLowerCase : string -> string.

(** [s] occurs in [d] when case is ignored. *)
Definition ci_contains (s d : string) : Prop :=
  exists pre post, toLowerCase d = pre ++ toLowerCase s ++ post.

(** The search text occurs in the description, or in the category when
    the transaction has one. *)
Definition search_matches (s : string) (t : Transaction) : Prop :=
  ci_contains s (description t)
  \/ exists c, category t = Some c /\ ci_contains s c.

Definition type_matches (f : TransactionTable.FilterType) (t : Transaction) : Prop :=
  match f with
  | TransactionTable.all => True
  | TransactionTable.credit => type t = "credit"
  | TransactionTable.debit => type t = "debit"
  end.

End Engine.

(** Elements [from], ..., [from + count - 1] of a list, counted from 0. *)
Definition range {A : Type} (from count : Z) (l : list A) : list A :=
  firstn (Z.to_nat count) (skipn (Z.to_nat from) l).

(** A request failed: the promise rejected, or the status is not 2xx. *)
Definition failed {A : Type} (r : FetchOutcome A) : Prop :=
  match r with
  | Rejected _ => True
  | Resolved (NotOk _) => True
  | Resolved (Ok _) => False
  end.

(** A response arrived, whatever its status. *)
Definition arrived {A : Type} (r : FetchOutcome A) : Prop :=
  match r with
  | Rejected _ => False
  | Resolved _ => True
  end.

(** The body of a successful response parses. *)
Definition parses {A : Type} (r : FetchOutcome A) : Prop :=
  match r with
  | Resolved (Ok (inl _)) => False
  | _ => True
  end.

(** The value of a state slice after its own response is applied to it:
    the body of a successful response, and the old value otherwise. *)
Definition applied {A : Type} (r : FetchOutcome A) (old : A) : A :=
  match r with
  | Resolved (Ok (inr v)) => v
  | _ => old
  end.

(** The currency tag of the first element of a list, when the list has
    one and the tag is there. *)
Definition first_tag (l : list Transaction) : option string :=
  match l with
  | t0 :: _ => JS.truthy_str (currency t0)
  | [] => None
  end.

(** The five slices as [fetchData] leaves them when each response is
    applied on its own. *)
Definition independently_applied (net : Analytics) (before after : App.AppState) : Prop :=
  App.summary after = applied (summary_res net) (App.summary before)
  /\ App.spending after = applied (spending_res net) (App.spending before)
  /\ App.trends after = applied (trends_res net) (App.trends before)
  /\ App.merchants after = applied (merchants_res net) (App.merchants before)
  /\ App.transactions after = applied (transactions_res net) (App.transactions before).

(** The five slices are what they were. *)
Definition slices_kept (before after : App.AppState) : Prop :=
  App.summary after = App.summary before
  /\ App.spending after = App.spending before
  /\ App.trends after = App.trends before
  /\ App.merchants after = App.merchants before
  /\ App.transactions after = App.transactions before.

Definition all_arrived (net : Analytics) : Prop :=
  arrived (summary_res net) /\ arrived (spending_res net)
  /\ arrived (trends_res net) /\ arrived (merchants_res net)
  /\ arrived (transactions_res net).

Definition all_parse (net : Analytics) : Prop :=
  parses (summary_res net) /\ parses (spending_res net)
  /\ parses (trends_res net) /\ parses (merchants_res net)
  /\ parses (transactions_res net).

(** Each slice holds its old value or the body of the successful
    response of its own request. *)
Definition old_or_own {A : Type} (r : FetchOutcome A) (old new : A) : Prop :=
  new = old \/ r = Resolved (Ok (inr new)).

Definition no_rollback (net : Analytics) (before after : App.AppState) : Prop :=
  old_or_own (summary_res net) (App.summary before) (App.summary after)
  /\ old_or_own (spending_res net) (App.spending before) (App.spending after)
  /\ old_or_own (trends_res net) (App.trends before) (App.trends after)
  /\ old_or_own (merchants_res net) (App.merchants before) (App.merchants after)
  /\ old_or_own (transactions_res net) (App.transactions before)
       (App.transactions after).

(** The transaction list an operation fetched, if it fetched one. *)
Definition fetched_list (r : FetchOutcome (list Transaction)) : option (list Transaction) :=
  match r with
  | Resolved (Ok (inr l)) => Some l
  | _ => None
  end.

(** The currency tag that a fetched list offers. *)
Definition list_tag (fetched : option (list Transaction)) : option string :=
  match fetched with
  | Some l => first_tag l
  | None => None
  end.

(** The currency is what it was, or it is the tag of the first element
    of the fetched list. *)
Definition currency_from_list (fetched : option (list Transaction))
    (before after : string) : Prop :=
  after = before \/ list_tag fetched = Some after.

(** The request goes to the base [b]. *)
Definition under (b : string) (q : Request) : Prop :=
  exists path, url q = b ++ path.

(** The currency that the metadata of an upload body carries. *)
Definition metadata_currency (r : FetchOutcome UploadBody) : option string :=
  match r with
  | Resolved (Ok (inr (WithTransactions _ (Some m)))) => JS.truthy_str (meta_currency m)
  | _ => None
  end.

Definition succeeded {A : Type} (r : FetchOutcome A) : Prop :=
  exists v, r = Resolved (Ok (inr v)).

(** The requests of one run of [fetchData] under the base [b]. *)
Definition analytics_requests (b : string) : list Request :=
  map (fun path => {| url := b ++ path; method := "GET"; body := NoBody |})
    ["/analytics/summary"; "/analytics/spending"; "/analytics/trends";
     "/analytics/merchants"; "/analytics/transactions"].

End Spec.

(** ** Sample data *)

Module Sample.
Import Model Net.

(** A reading of dates that keeps the order of ISO dates: the digits of
    the text as one number; no digits, no date. *)
Definition digit (c : ascii) : option Z :=
  let n := nat_of_ascii c in
  if ((48 <=? n) && (n <=? 57))%nat then Some (Z.of_nat (n - 48)) else None.

Fixpoint digits (acc : option Z) (s : string) : option Z :=
  match s with
  | EmptyString => acc
  | String c s' =>
      match digit c with
      | Some d => digits (Some (match acc with Some a => 10 * a + d | None => d end)) s'
      | None => digits acc s'
      end
  end.

Definition getTime (s : string) : option Z := digits None s.

Definition VITE_API_BASE : option string := Some "https://api.example.com".

Definition base : string := "https://api.example.com/api/v1".

Definition tx (d desc ty : string) (cat cur : option string) : Transaction :=
  {| date := d; description := desc; amount := 1; type := ty;
     category := cat; currency := cur |}.

Definition coffee : Transaction :=
  tx "2024-03-02" "Coffee Shop" "debit" (Some "Food") (Some "EUR").
Definition salary : Transaction :=
  tx "2024-03-01" "ACME Payroll" "credit" (Some "Income") None.
Definition rent : Transaction :=
  tx "2024-02-28" "Rent" "debit" None None.

(** Thirty-seven transactions, dated by a running number. *)
Definition thirty_seven : list Transaction :=
  map (fun i => tx (String (ascii_of_nat (48 + i / 10))
                      (String (ascii_of_nat (48 + i mod 10)) ""))
                   "Card payment" "debit" None None)
      (seq 0 37).

Definition zero_summary : SummaryMetrics :=
  {| total_income := 0; total_expense := 0; net_balance := 0;
     transaction_count := 0 |}.

Definition february_summary : SummaryMetrics :=
  {| total_income := 0; total_expense := 900; net_balance := -900;
     transaction_count := 1 |}.

Definition march_summary : SummaryMetrics :=
  {| total_income := 2500; total_expense := 1200; net_balance := 1300;
     transaction_count := 3 |}.

Definition all_ok : Analytics :=
  {| summary_res := Resolved (Ok (inr march_summary));
     spending_res := Resolved (Ok (inr [("Food", 4 # 1)]));
     trends_res := Resolved (Ok (inr []));
     merchants_res := Resolved (Ok (inr [{| name := "Coffee Shop"; value := 4 # 1 |}]));
     transactions_res := Resolved (Ok (inr [coffee; salary; rent])) |}.

(** The merchants endpoint answers 500. *)
Definition merchants_500 : Analytics :=
  {| summary_res := summary_res all_ok;
     spending_res := spending_res all_ok;
     trends_res := trends_res all_ok;
     merchants_res := Resolved (NotOk (inr {| detail := Some "boom"; message := None |}));
     transactions_res := transactions_res all_ok |}.

(** The merchants request does not get through. *)
Definition merchants_down : Analytics :=
  {| summary_res := summary_res all_ok;
     spending_res := spending_res all_ok;
     trends_res := trends_res all_ok;
     merchants_res := Rejected (ErrorObj "Failed to fetch");
     transactions_res := transactions_res all_ok |}.

(** A world that holds data in euros and a conversation. *)
Definition busy : App.World :=
  {| App.app :=
       {| App.isUploading := false; App.isLoadingData := false;
          App.error := Some "old";
          App.transactions := [rent];
          App.messages := [{| role := user; content := "hello" |};
                           {| role := bot; content := "hi" |}];
          App.currency := "EUR";
          App.summary := february_summary;
          App.spending := [("Rent", 900 # 1)];
          App.trends := [];
          App.merchants := [{| name := "Landlord"; value := 900 # 1 |}];
          App.fileInputValue := "statement.csv" |};
     App.chat := {| App.input := "  Summarize my spending "; App.isLoading := false |};
     App.snapshot := {| App.snapshot_content := ""; App.loading := false |};
     App.requests := [];
     App.console := [] |}.

Definition history_table : TransactionTable.Props :=
  {| TransactionTable.transactions := thirty_seven;
     TransactionTable.limit := None;
     TransactionTable.pageSize := Some 25 |}.

(** A table that is given a limit and a page size at once. *)
Definition both_table : TransactionTable.Props :=
  {| TransactionTable.transactions := thirty_seven;
     TransactionTable.limit := Some 10;
     TransactionTable.pageSize := Some 25 |}.

Definition eur_upload : FetchOutcome UploadBody :=
  Resolved (Ok (inr (WithTransactions [coffee; salary]
                       (Some {| meta_currency := Some "EUR" |})))).

(** Only the transactions endpoint is down. *)
Definition transactions_down : Analytics :=
  {| summary_res := summary_res all_ok;
     spending_res := spending_res all_ok;
     trends_res := trends_res all_ok;
     merchants_res := merchants_res all_ok;
     transactions_res := Resolved (NotOk (inl (ErrorObj "Unexpected token"))) |}.

End Sample.

(** ** The controls of the transaction table *)

Module TableControls.
Import Model TransactionTable.

Definition setSearch (v : string) (s : State) : State :=
  {| search := v; filterType := filterType s;
     sortOrder := sortOrder s; currentPage := currentPage s |}.

Definition setFilterType (v : FilterType) (s : State) : State :=
  {| search := search s; filterType := v;
     sortOrder := sortOrder s; currentPage := currentPage s |}.

(** The condition under which the button that clears the filters is
    rendered: [search || filterType !== 'all']. *)
Definition showClear (s : State) : bool :=
  negb (String.eqb (search s) "")
  || match filterType s with
     | all => false
     | _ => true
     end.

(** The [onClick] of that button. *)
Definition clearFilters (s : State) : State :=
  setFilterType all (setSearch "" s).

(** The [disabled] attributes of the two page buttons. *)
Definition prevDisabled (s : State) : bool := currentPage s =? 1.

Section Engine.
Variable toLowerCase : string -> string.
Variable getTime : string -> option Z.

(** [pageSize && filteredTransactions.length > pageSize]: the block
    with the range label and the two page buttons is rendered. *)
Definition showPagination (p : Props) (s : State) : bool :=
  match JS.truthy_num (pageSize p) with
  | Some pageSize =>
      Z.of_nat (List.length (filteredTransactions toLowerCase getTime p s))
      >? pageSize
  | None => false
  end.

(** The two numbers of the label "from-to of n". *)
Definition labelFrom (pageSize : Z) (p : Props) (s : State) : Z :=
  Z.min ((currentPage s - 1) * pageSize + 1)
        (Z.of_nat (List.length (filteredTransactions toLowerCase getTime p s))).

Definition labelTo (pageSize : Z) (p : Props) (s : State) : Z :=
  Z.min (currentPage s * pageSize)
        (Z.of_nat (List.length (filteredTransactions toLowerCase getTime p s))).

Definition nextDisabled (p : Props) (s : State) : bool :=
  currentPage s =? totalPages toLowerCase getTime p s.

End Engine.

End TableControls.

(** ** The tabs of the application *)

Module Tabs.

Inductive Panel := Dashboard | Chat | History | UnderConstruction.

(** The four guarded blocks of the content area, in the order of the
    markup; a block is rendered when its condition holds. *)
Definition rendered (activeTab : string) : list Panel :=
  (if String.eqb activeTab "dashboard" then [Dashboard] else [])
  ++ (if String.eqb activeTab "chat" then [Chat] else [])
  ++ (if String.eqb activeTab "history" then [History] else [])
  ++ (if negb (String.eqb activeTab "dashboard")
         && negb (String.eqb activeTab "chat")
         && negb (String.eqb activeTab "history")
      then [UnderConstruction] else []).

(** The [id]s of [menuItems] in [Sidebar]. *)
Definition menuItems : list string :=
  ["dashboard"; "chat"; "history"; "categories"; "settings"].

End Tabs.

(** ** The timer of the snapshot card *)

Module SnapshotTimer.

(** The timers of the page: the clock, the next handle, and the pending
    timers with the time at which each is due. *)
Record Timers := {
  now : Z;
  next_id : nat;
  pending : list (nat * Z)
}.

(** The card: the timers, the handle that the clean-up of the last
    effect closes over, and how often [fetchSnapshot] was called. *)
Record Card := {
  timers : Timers;
  cleanup : option nat;
  fetches : nat
}.

Definition mounted (t : Z) : Card :=
  {| timers := {| now := t; next_id := 0; pending := [] |};
     cleanup := None; fetches := 0 |}.

(** [setTimeout(callback, delay)] *)
Definition setTimeout (delay : Z) (t : Timers) : nat * Timers :=
  (next_id t,
   {| now := now t; next_id := S (next_id t);
      pending := pending t ++ [(next_id t, now t + delay)] |}).

(** [clearTimeout(id)]; a handle that is not pending is ignored. *)
Definition clearTimeout (id : nat) (t : Timers) : Timers :=
  {| now := now t; next_id := next_id t;
     pending := filter (fun e => negb (Nat.eqb (fst e) id)) (pending t) |}.

(** The effect of [SnapshotCard] runs when the card mounts and when
    [transactions] changes: the clean-up of the run before it, then the
    body, which arms a timer of 500 ms. *)
Definition effect (c : Card) : Card :=
  let cleared :=
    match cleanup c with
    | Some timer => clearTimeout timer (timers c)
    | None => timers c
    end in
  let (timer, armed) := setTimeout 500 cleared in
  {| timers := armed; cleanup := Some timer; fetches := fetches c |}.

(** Time passes: the timers that are due call [fetchSnapshot]. *)
Definition elapse (dt : Z) (c : Card) : Card :=
  let t := now (timers c) + dt in
  let due := filter (fun e => snd e <=? t) (pending (timers c)) in
  {| timers := {| now := t; next_id := next_id (timers c);
                  pending := filter (fun e => negb (snd e <=? t))
                               (pending (timers c)) |};
     cleanup := cleanup c;
     fetches := (fetches c + List.length due)%nat |}.

Inductive Event :=
| Changed
| Elapsed (dt : Z).

Definition step (c : Card) (e : Event) : Card :=
  match e with
  | Changed => effect c
  | Elapsed dt => elapse dt c
  end.

Definition run (events : list Event) (c : Card) : Card :=
  fold_left step events c.

(** A burst: a change, and after each of the given pauses another. *)
Definition burst (pauses : list Z) : list Event :=
  Changed :: flat_map (fun dt => [Elapsed dt; Changed]) pauses.

(** Nothing is pending, or the one timer that the clean-up knows. *)
Definition single_slot (c : Card) : Prop :=
  pending (timers c) = []
  \/ exists id due, cleanup c = Some id /\ pending (timers c) = [(id, due)].

(** The one pending timer is the one of the last effect, due at [due]. *)
Definition armed (due : Z) (c : Card) : Prop :=
  exists id, cleanup c = Some id /\ pending (timers c) = [(id, due)].

End SnapshotTimer.

(** ** More vocabulary *)

Module Behaviour.
Import Model Net.

(** The text of the bot message that ends a chat turn. *)
Definition reply (r : FetchOutcome ChatBody) : string :=
  match r with
  | Resolved (Ok (inr data)) => response data
  | _ => App.fallback
  end.

(** The guard of [sendMessage] lets the turn start: the trimmed input is
    not empty and the flag [isLoading] of the panel is down. *)
Definition turn_starts (trim : string -> string) (w : App.World) : bool :=
  negb (String.eqb (trim (App.input (App.chat w))) "")
  && negb (App.isLoading (App.chat w)).

(** The list of transactions that a successful upload body carries. *)
Definition uploaded (body : UploadBody) : list Transaction :=
  match body with
  | WithTransactions transactions _ => transactions
  | BareArray data => data
  end.

(** The message that the [catch] of [handleFileUpload] shows for a
    failed upload. *)
Definition upload_error (r : FetchOutcome UploadBody) : option string :=
  let shown e :=
    match e with
    | ErrorObj message => Some message
    | NotAnError => Some "An unexpected error occurred during upload."
    end in
  match r with
  | Rejected e => shown e
  | Resolved (Ok (inl e)) => shown e
  | Resolved (Ok (inr _)) => None
  | Resolved (NotOk (inl e)) => shown e
  | Resolved (NotOk (inr errData)) =>
      Some (JS.or_else (detail errData) "Upload failed")
  end.

(** The time stamp of a transaction, when its date parses. *)
Definition stamp (getTime : string -> option Z) (t : Transaction) : option Z :=
  getTime (date t).

(** The key by which a list is in order: time stamps, ascending or
    descending. *)
Definition in_order (getTime : string -> option Z)
    (o : TransactionTable.SortOrder) (a b : Transaction) : Prop :=
  match stamp getTime a, stamp getTime b with
  | Some x, Some y =>
      match o with
      | TransactionTable.asc => x <= y
      | TransactionTable.desc => y <= x
      end
  | _, _ => False
  end.


(** The text of the snapshot card after [fetchSnapshot]. *)
Definition snapshot_text (r : FetchOutcome ChatBody) (old : string) : string :=
  match r with
  | Resolved (Ok (inr data)) => response data
  | Resolved (NotOk _) => old
  | _ => "Failed to load financial snapshot."
  end.

(** The body of a response parses, as far as [fetchData] reads it: a
    body is read only when the status is 2xx. *)
Definition body_parses {A : Type} (res : HttpResponse A) : bool :=
  match res with
  | Ok (inl _) => false
  | _ => true
  end.

(** The transaction list that one run of [fetchData] stores: all five
    requests got a response, the bodies that are read before the
    transactions parse, and the transactions answer is 2xx and parses. *)
Definition applied_list (net : Analytics) : option (list Transaction) :=
  match summary_res net, spending_res net, trends_res net,
        merchants_res net, transactions_res net with
  | Resolved summRes, Resolved spendRes, Resolved trendRes,
    Resolved merchRes, Resolved (Ok (inr transData)) =>
      if body_parses summRes && body_parses spendRes
         && body_parses trendRes && body_parses merchRes
      then Some transData
      else None
  | _, _, _, _, _ => None
  end.

(** The currency tag that a stored list offers, and the old currency
    when it offers none. *)
Definition tag_or (stored : option (list Transaction)) (old : string) : string :=
  match Spec.list_tag stored with
  | Some c => c
  | None => old
  end.

(** The currency after an upload of a file: a failed upload keeps it; a
    successful one sets the currency of the metadata, if the body has
    one, and the refresh that follows sets the tag of the list it
    stores, if that has one. *)
Definition currency_after_upload (r : FetchOutcome UploadBody) (net : Analytics)
    (before : string) : string :=
  match r with
  | Resolved (Ok (inr _)) =>
      tag_or (applied_list net)
        (match Spec.metadata_currency r with
         | Some c => c
         | None => before
         end)
  | _ => before
  end.

End Behaviour.

(** ** Facts about the JavaScript primitives *)

Module JSFacts.

Lemma startsWith_iff (s p : string) :
  JS.startsWith s p = true <-> exists post, s = p ++ post.
Proof.
  revert s. induction p as [|c p IH]; intros s; simpl.
  - split; [intros _; now exists s | intros _; now destruct s].
  - destruct s as [|d s].
    + split; [discriminate | intros [post H]; discriminate].
    + simpl. rewrite andb_true_iff, Ascii.eqb_eq, IH. split.
      * intros [-> [post ->]]. now exists post.
      * intros [post H]. injection H as -> ->. split; [reflexivity | now exists post].
Qed.

Lemma includes_eq (s sub : string) :
  JS.includes s sub =
  JS.startsWith s sub
  || match s with
     | EmptyString => false
     | String _ s' => JS.includes s' sub
     end.
Proof. now destruct s. Qed.

Lemma includes_iff (s sub : string) :
  JS.includes s sub = true <-> exists pre post, s = pre ++ sub ++ post.
Proof.
  induction s as [|d s IH]; rewrite includes_eq, orb_true_iff, startsWith_iff.
  - split.
    + intros [[post H] | H]; [| discriminate]. now exists "", post.
    + intros [pre [post H]]. left.
      destruct pre; [now exists post | discriminate].
  - rewrite IH. split.
    + intros [[post H] | [pre [post H]]].
      * now exists "", post.
      * exists (String d pre), post. simpl. now rewrite H.
    + intros [pre [post H]]. destruct pre as [|c pre]; simpl in H.
      * left. now exists post.
      * right. injection H as _ H. now exists pre, post.
Qed.

Lemma includes_empty (s : string) : JS.includes s "" = true.
Proof. apply includes_iff. now exists "", s. Qed.

Lemma empty_includes (sub : string) : JS.includes "" sub = true -> sub = "".
Proof.
  intros H. apply includes_iff in H as [pre [post H]].
  destruct pre; [| discriminate]. destruct sub; [reflexivity | discriminate].
Qed.

Lemma firstn_min_length {A : Type} (n : nat) (l : list A) :
  firstn (Nat.min n (List.length l)) l = firstn n l.
Proof.
  destruct (Nat.le_ge_cases n (List.length l)) as [H | H].
  - now rewrite Nat.min_l.
  - rewrite Nat.min_r by assumption. now rewrite !firstn_all2 by lia.
Qed.

(** [slice] with bounds that are not negative is the plain range. *)
Lemma slice_range {A : Type} (l : list A) (from count : Z) :
  0 <= from -> 0 <= count ->
  JS.slice l from (from + count) = Spec.range from count l.
Proof.
  intros Hf Hc. unfold JS.slice, Spec.range.
  destruct (Z.ltb_spec from 0); [lia |].
  destruct (Z.ltb_spec (from + count) 0); [lia |].
  set (len := Z.of_nat (List.length l)).
  destruct (Z.le_gt_cases from len) as [Hle | Hgt].
  - rewrite (Z.min_l from len) by assumption.
    rewrite <- (firstn_min_length (Z.to_nat count)).
    f_equal. rewrite length_skipn. subst len. lia.
  - rewrite (Z.min_r from len) by lia.
    rewrite (Z.min_r (from + count) len) by lia.
    rewrite Z.sub_diag. simpl.
    rewrite (skipn_all2 l (n := Z.to_nat from)) by (subst len; lia).
    now rewrite firstn_nil.
Qed.

Lemma slice_prefix {A : Type} (l : list A) (n : Z) :
  0 < n ->
  JS.slice l 0 n = firstn (Z.to_nat (Z.min n (Z.of_nat (List.length l)))) l.
Proof.
  intros Hn. change n with (0 + n) at 1. rewrite slice_range by lia.
  unfold Spec.range. simpl. rewrite <- (firstn_min_length (Z.to_nat n)).
  f_equal. lia.
Qed.

(** [Math.ceil] of a quotient is the least number of parts. *)
Lemma ceil_div_bounds (a b : Z) :
  0 < b -> (JS.ceil_div a b - 1) * b < a <= JS.ceil_div a b * b.
Proof.
  intros Hb. unfold JS.ceil_div.
  pose proof (Z.div_mod (- a) b ltac:(lia)) as E.
  pose proof (Z.mod_pos_bound (- a) b Hb) as B. nia.
Qed.

Section Sort.
Context {A : Type}.
Variable cmp : A -> A -> option Z.

Lemma insert_perm (x : A) (l : list A) : Permutation (JS.insert cmp x l) (x :: l).
Proof.
  induction l as [|y l IH]; simpl; [reflexivity |].
  destruct (JS.sort_compare cmp x y <=? 0); [reflexivity |].
  rewrite IH. apply perm_swap.
Qed.

Lemma sort_perm (l : list A) : Permutation (JS.sort cmp l) l.
Proof.
  induction l as [|x l IH]; simpl; [reflexivity |].
  rewrite insert_perm. now constructor.
Qed.

(** A list whose neighbours are in order is left as it is. *)
Lemma sort_sorted_id (l : list A) : Sorted (JS.before cmp) l -> JS.sort cmp l = l.
Proof.
  induction 1 as [|x l HS IH HR]; simpl; [reflexivity |].
  fold (JS.sort cmp l). rewrite IH.
  destruct HR as [|y l Hxy]; simpl; [reflexivity |].
  unfold JS.before in Hxy. now destruct (Z.leb_spec (JS.sort_compare cmp x y) 0); [| lia].
Qed.

(** Of two elements one may stand before the other. *)
Hypothesis cmp_total : forall x y, JS.before cmp x y \/ JS.before cmp y x.

Lemma insert_sorted (x : A) (l : list A) :
  Sorted (JS.before cmp) l -> Sorted (JS.before cmp) (JS.insert cmp x l).
Proof.
  induction 1 as [|y l HS IH HR]; simpl.
  - repeat constructor.
  - destruct (Z.leb_spec (JS.sort_compare cmp x y) 0) as [Hle | Hgt].
    + repeat constructor; assumption.
    + constructor; [assumption |].
      assert (Hyx : JS.before cmp y x) by (destruct (cmp_total x y); [unfold JS.before in *; lia | assumption]).
      destruct HR as [|z l Hyz]; simpl.
      * now constructor.
      * destruct (JS.sort_compare cmp x z <=? 0); now constructor.
Qed.

Lemma sort_sorted (l : list A) : Sorted (JS.before cmp) (JS.sort cmp l).
Proof.
  induction l as [|x l IH]; simpl; [constructor | now apply insert_sorted].
Qed.

Lemma sort_idempotent (l : list A) : JS.sort cmp (JS.sort cmp l) = JS.sort cmp l.
Proof. apply sort_sorted_id, sort_sorted. Qed.

End Sort.

Lemma filter_id {A : Type} (f : A -> bool) (l : list A) :
  (forall x, In x l -> f x = true) -> filter f l = l.
Proof.
  induction l as [|x l IH]; intros H; simpl; [reflexivity |].
  rewrite (H x) by now left. f_equal. apply IH. intros y Hy. apply H. now right.
Qed.

End JSFacts.

(** ** The transaction table *)

Module TransactionTableFacts.
Import Model TransactionTable.

Section Engine.
Variable toLowerCase : string -> string.
Variable getTime : string -> option Z.

Lemma matchesSearch_iff (s : string) (t : Transaction) :
  matchesSearch toLowerCase s t = true <-> Spec.search_matches toLowerCase s t.
Proof.
  unfold matchesSearch, Spec.search_matches, Spec.ci_contains.
  rewrite orb_true_iff, !JSFacts.includes_iff. split.
  - intros [H | [pre [post H]]]; [now left |].
    destruct (category t) as [c |] eqn:Ec; simpl in H.
    + unfold JS.or_else, JS.truthy_str in H.
      destruct (toLowerCase c) eqn:El.
      * left. destruct pre; [| discriminate]. simpl in H.
        destruct (toLowerCase s); [| discriminate].
        now exists "", (toLowerCase (description t)).
      * right. exists c. split; [reflexivity |]. rewrite El. now exists pre, post.
    + left. destruct pre; [| discriminate]. simpl in H.
      destruct (toLowerCase s); [| discriminate].
      now exists "", (toLowerCase (description t)).
  - intros [H | [c [Ec [pre [post H]]]]]; [now left |].
    right. rewrite Ec. simpl. unfold JS.or_else, JS.truthy_str.
    destruct (toLowerCase c) eqn:El; [| now exists pre, post].
    now exists pre, post.
Qed.

Lemma matchesType_iff (f : FilterType) (t : Transaction) :
  matchesType f t = true <-> Spec.type_matches f t.
Proof.
  destruct f; simpl; [tauto | |]; apply String.eqb_eq.
Qed.

Lemma keep_iff (s : string) (f : FilterType) (t : Transaction) :
  keep toLowerCase s f t = true
  <-> Spec.search_matches toLowerCase s t /\ Spec.type_matches f t.
Proof.
  unfold keep. now rewrite andb_true_iff, matchesSearch_iff, matchesType_iff.
Qed.

Lemma byDate_total (o : SortOrder) (a b : Transaction) :
  JS.before (byDate getTime o) a b \/ JS.before (byDate getTime o) b a.
Proof.
  unfold JS.before, JS.sort_compare, byDate.
  destruct (getTime (date a)), (getTime (date b)), o; lia.
Qed.

Lemma filterSort_perm (L : list Transaction) (s : string) (f : FilterType)
    (o : SortOrder) :
  Permutation (filterSort toLowerCase getTime L s f o)
              (filter (keep toLowerCase s f) L).
Proof. apply JSFacts.sort_perm. Qed.

Lemma filterSort_In (L : list Transaction) (s : string) (f : FilterType)
    (o : SortOrder) (t : Transaction) :
  In t (filterSort toLowerCase getTime L s f o)
  <-> In t L /\ keep toLowerCase s f t = true.
Proof.
  rewrite <- filter_In. split; apply Permutation_in;
    [| symmetry]; apply filterSort_perm.
Qed.

(** C4. The filtered view holds exactly the transactions of the list,
    each as often as the list has it, whose description or category
    contains the search text when case is ignored and whose type the
    type filter admits ([all] admits every type); it is a subset of the
    list, and filtering it again with the same search text and type
    filter gives it back unchanged. *)
Theorem filter_exact_subset_idempotent
    (L : list Transaction) (s : string) (f : FilterType) (o : SortOrder) :
  let result := filterSort toLowerCase getTime L s f o in
  (forall t, In t result <->
             In t L /\ Spec.search_matches toLowerCase s t /\ Spec.type_matches f t)
  /\ Permutation result (filter (keep toLowerCase s f) L)
  /\ incl result L
  /\ filterSort toLowerCase getTime result s f o = result.
Proof.
  intros result. subst result. split; [| split; [| split]].
  - intros t. rewrite filterSort_In, keep_iff. tauto.
  - apply filterSort_perm.
  - intros t H. now apply filterSort_In in H.
  - unfold filterSort at 1. rewrite JSFacts.filter_id.
    + apply JSFacts.sort_sorted_id, JSFacts.sort_sorted. apply byDate_total.
    + intros t H. now apply filterSort_In in H.
Qed.

Lemma filtered_setCurrentPage (p : Props) (s : State) (f : Z -> Z) :
  filteredTransactions toLowerCase getTime p (setCurrentPage f s)
  = filteredTransactions toLowerCase getTime p s.
Proof. reflexivity. Qed.

Lemma paginated_pageSize (p : Props) (s : State) (ps : Z) :
  limit p = None -> pageSize p = Some ps -> 0 < ps -> 1 <= currentPage s ->
  paginatedTransactions toLowerCase getTime p s
  = Spec.range ((currentPage s - 1) * ps) ps
      (filteredTransactions toLowerCase getTime p s).
Proof.
  intros Hl Hp Hps Hc. unfold paginatedTransactions. rewrite Hl, Hp. simpl.
  destruct ps; try lia. apply JSFacts.slice_range; nia.
Qed.

Lemma totalPages_pageSize (p : Props) (s : State) (ps : Z) :
  pageSize p = Some ps -> 0 < ps ->
  totalPages toLowerCase getTime p s
  = JS.ceil_div (Z.of_nat (List.length (filteredTransactions toLowerCase getTime p s))) ps.
Proof.
  intros Hp Hps. unfold totalPages. rewrite Hp. now destruct ps.
Qed.

Lemma handleNextPage_last (p : Props) (s : State) :
  totalPages toLowerCase getTime p s <= currentPage s ->
  handleNextPage toLowerCase getTime p s = s.
Proof.
  intros H. unfold handleNextPage.
  now destruct (Z.ltb_spec (currentPage s) (totalPages toLowerCase getTime p s)); [lia |].
Qed.

Lemma handlePrevPage_first (s : State) :
  currentPage s <= 1 -> handlePrevPage s = s.
Proof.
  intros H. unfold handlePrevPage.
  now destruct (Z.gtb_spec (currentPage s) 1); [lia |].
Qed.

(** C5. With a page size and no limit, page [p] shows the elements
    [(p-1)*pageSize, p*pageSize) of the filtered and sorted list; the
    number of pages is the quotient of the filtered count by the page
    size, rounded up; next on the last page and previous on page 1 leave
    the page as it is, and move by one page otherwise. With 37 filtered
    transactions and a page size of 25, page 1 shows the first 25, page
    2 the remaining 12, and next on page 2 does nothing. *)
Theorem pagination_by_pageSize (p : Props) (s : State) (ps : Z) :
  limit p = None -> pageSize p = Some ps -> 0 < ps ->
  let filtered := filteredTransactions toLowerCase getTime p s in
  let n := Z.of_nat (List.length filtered) in
  let pages := totalPages toLowerCase getTime p s in
  let page k := setCurrentPage (fun _ => k) s in
  (forall k, 1 <= k ->
     paginatedTransactions toLowerCase getTime p (page k)
     = Spec.range ((k - 1) * ps) ps filtered)
  /\ (pages - 1) * ps < n <= pages * ps
  /\ handleNextPage toLowerCase getTime p (page pages) = page pages
  /\ handlePrevPage (page 1) = page 1
  /\ (forall k, k < pages ->
        handleNextPage toLowerCase getTime p (page k) = page (k + 1))
  /\ (forall k, 1 < k -> handlePrevPage (page k) = page (k - 1))
  /\ (ps = 25 -> n = 37 ->
        paginatedTransactions toLowerCase getTime p (page 1) = firstn 25 filtered
        /\ paginatedTransactions toLowerCase getTime p (page 2) = skipn 25 filtered
        /\ List.length (skipn 25 filtered) = 12%nat
        /\ handleNextPage toLowerCase getTime p (page 2) = page 2).
Proof.
  intros Hl Hp Hps filtered n pages page.
  assert (Hpage : forall k, 1 <= k ->
            paginatedTransactions toLowerCase getTime p (page k)
            = Spec.range ((k - 1) * ps) ps filtered).
  { intros k Hk. now rewrite (paginated_pageSize _ _ ps). }
  assert (Hpages : pages = JS.ceil_div n ps) by now apply totalPages_pageSize.
  assert (Hnext : forall k, pages <= k ->
            handleNextPage toLowerCase getTime p (page k) = page k).
  { intros k Hk. now apply handleNextPage_last. }
  repeat match goal with |- _ /\ _ => split end.
  - exact Hpage.
  - rewrite Hpages. apply JSFacts.ceil_div_bounds, Hps.
  - rewrite Hpages. apply JSFacts.ceil_div_bounds, Hps.
  - apply Hnext. lia.
  - now apply handlePrevPage_first.
  - intros k Hk. unfold handleNextPage.
    change (totalPages toLowerCase getTime p (page k)) with pages.
    change (currentPage (page k)) with k.
    now destruct (Z.ltb_spec k pages); [| lia].
  - intros k Hk. unfold handlePrevPage. change (currentPage (page k)) with k.
    now destruct (Z.gtb_spec k 1); [| lia].
  - intros -> Hn.
    assert (Hlen : List.length filtered = 37%nat) by lia.
    rewrite !Hpage by lia. unfold Spec.range.
    change (Z.to_nat ((1 - 1) * 25)) with 0%nat.
    change (Z.to_nat ((2 - 1) * 25)) with 25%nat.
    change (Z.to_nat 25) with 25%nat.
    assert (Hrest : List.length (skipn 25 filtered) = 12%nat)
      by now rewrite length_skipn, Hlen.
    split; [reflexivity |]. split; [| split; [exact Hrest |]].
    + apply firstn_all2. rewrite Hrest. lia.
    + apply Hnext. rewrite Hpages, Hn. vm_compute. discriminate.
Qed.

(** C10. With a limit, the rows shown are the first [min(limit, n)] of
    the filtered and sorted list, whatever the page size and the current
    page are, and the page handlers do not change them. *)
Theorem limit_takes_precedence (p : Props) (s : State) (lim : Z) :
  limit p = Some lim -> 0 < lim ->
  let filtered := filteredTransactions toLowerCase getTime p s in
  let n := Z.of_nat (List.length filtered) in
  paginatedTransactions toLowerCase getTime p s
  = firstn (Z.to_nat (Z.min lim n)) filtered
  /\ (forall p' s',
        transactions p' = transactions p -> limit p' = limit p ->
        search s' = search s -> filterType s' = filterType s ->
        sortOrder s' = sortOrder s ->
        paginatedTransactions toLowerCase getTime p' s'
        = paginatedTransactions toLowerCase getTime p s)
  /\ paginatedTransactions toLowerCase getTime p
        (handleNextPage toLowerCase getTime p s)
      = paginatedTransactions toLowerCase getTime p s
  /\ paginatedTransactions toLowerCase getTime p (handlePrevPage s)
      = paginatedTransactions toLowerCase getTime p s.
Proof.
  intros Hl Hlim filtered n.
  assert (Hany : forall p' s',
            transactions p' = transactions p -> limit p' = limit p ->
            search s' = search s -> filterType s' = filterType s ->
            sortOrder s' = sortOrder s ->
            paginatedTransactions toLowerCase getTime p' s'
            = paginatedTransactions toLowerCase getTime p s).
  { intros p' s' Ht Hl' Hs Hf Ho.
    unfold paginatedTransactions, filteredTransactions.
    now rewrite Ht, Hl', Hs, Hf, Ho, Hl; destruct lim. }
  repeat match goal with |- _ /\ _ => split end.
  - unfold paginatedTransactions. rewrite Hl.
    destruct lim; try lia. simpl JS.truthy_num. cbv iota.
    now apply JSFacts.slice_prefix.
  - exact Hany.
  - apply Hany; try reflexivity;
      unfold handleNextPage; now destruct (_ <? _).
  - apply Hany; try reflexivity;
      unfold handlePrevPage; now destruct (_ >? _).
Qed.

End Engine.

End TransactionTableFacts.

(** ** The handlers *)

Module AppFacts.
Import Model Net App.

(** *** Running a computation *)

Lemma completion_bind {A B : Type} (m : M A) (k : A -> M B) (w : World) (a : A) :
  completion m w = Normal a ->
  completion (bind m k) w = completion (k a) (exec m w).
Proof.
  unfold completion, exec, bind. destruct (m w) as [c w']. simpl. now intros ->.
Qed.

Lemma run_eq {A : Type} (m : M A) (w : World) : m w = (completion m w, exec m w).
Proof. unfold completion, exec. now destruct (m w). Qed.

(** A [catch] whose handler completes normally lets nothing through. *)
Lemma try_catch_normal (m : M unit) (handler : Thrown -> M unit) (w : World) :
  (forall e w', completion (handler e) w' = Normal tt) ->
  completion (try_catch m handler) w = Normal tt.
Proof.
  intros H. unfold completion, try_catch. destruct (m w) as [[[] | e] w']; simpl.
  - reflexivity.
  - apply H.
Qed.

Lemma try_finally_completion {A : Type} (m : M A) (f : World -> World) (w : World) :
  completion (try_finally m (modify f)) w = completion m w.
Proof. unfold completion, try_finally, modify. now destruct (m w). Qed.

(** Run a handler as far as it goes without looking at an answer. The
    state is evaluated at every step, so that it stays small. *)
Ltac run :=
  cbv beta iota zeta delta
    [exec completion ret bind throw gets modify try_catch try_finally
     onApp onChat onSnapshot setIsUploading setIsLoadingData setError
     setTransactions setMessages setCurrency setSummary setSpending setTrends
     setMerchants setFileInputValue setInput setIsLoading setContent setLoading
     console_error issue settle fetch json when_ok fst snd
     app chat snapshot requests console
     isUploading isLoadingData error transactions messages currency summary
     spending trends merchants fileInputValue
     input isLoading snapshot_content loading
     summary_res spending_res trends_res merchants_res transactions_res
     detail message meta_currency response].

(** Name the cells of a world. *)
Ltac cells w := destruct w as [[] [] [] ? ?].

(** Case analysis on what the backend answered, as far as the handler
    looks at it. *)
Ltac answer :=
  run;
  repeat (match goal with
          | |- context [match ?x with _ => _ end] =>
              lazymatch type of x with
              | FetchOutcome _ => destruct x
              | HttpResponse _ => destruct x
              | sum _ _ => destruct x
              | list _ => destruct x
              | option _ => destruct x eqn:?
              | Thrown => destruct x
              | UploadBody => destruct x
              end
          end; run).

Section Handlers.
Variable API_BASE : string.

Lemma fetchData_completion (net : Analytics) (w : World) :
  completion (fetchData API_BASE net) w = Normal tt.
Proof.
  unfold fetchData.
  rewrite (completion_bind _ _ _ tt) by reflexivity.
  unfold setIsLoadingData, onApp. rewrite try_finally_completion.
  now apply try_catch_normal.
Qed.

Lemma fetchData_requests (net : Analytics) (w : World) :
  requests (exec (fetchData API_BASE net) w)
  = (requests w ++ Spec.analytics_requests API_BASE)%list.
Proof.
  destruct net as [r1 r2 r3 r4 r5]. cells w.
  unfold fetchData. answer; cbn; rewrite <- !app_assoc; reflexivity.
Qed.

Lemma fetchData_slices (net : Analytics) (w : World) :
  let after := app (exec (fetchData API_BASE net) w) in
  (Spec.all_arrived net -> Spec.all_parse net ->
   Spec.independently_applied net (app w) after)
  /\ (~ Spec.all_arrived net -> Spec.slices_kept (app w) after)
  /\ Spec.no_rollback net (app w) after.
Proof.
  intros after. remember after as s eqn:E. subst after. revert E.
  destruct net as [r1 r2 r3 r4 r5]. cells w. unfold fetchData.
  answer; intros ->;
    unfold Spec.all_arrived, Spec.all_parse, Spec.independently_applied,
      Spec.slices_kept, Spec.no_rollback, Spec.old_or_own;
    cbn; tauto.
Qed.

(** C1, as the code has it. In every run of [fetchData]: no exception
    leaves it; if all five requests got a response and the bodies of the
    successful ones parse, each slice holds the body of its own response
    when that response was successful and its old value otherwise, so a
    status that is not 2xx for one view leaves the other four updated;
    if one of the five requests failed in transport, all five slices
    keep their old values; and no slice ever holds anything but its old
    value or the body of its own successful response. *)
Theorem fetchData_applies_arrived_responses (net : Analytics) (w : World) :
  let after := app (exec (fetchData API_BASE net) w) in
  completion (fetchData API_BASE net) w = Normal tt
  /\ (Spec.all_arrived net -> Spec.all_parse net ->
      Spec.independently_applied net (app w) after)
  /\ (~ Spec.all_arrived net -> Spec.slices_kept (app w) after)
  /\ Spec.no_rollback net (app w) after.
Proof.
  split; [apply fetchData_completion | apply fetchData_slices].
Qed.

Lemma fetchData_run (net : Analytics) (w : World) :
  fetchData API_BASE net w = (Normal tt, exec (fetchData API_BASE net) w).
Proof. now rewrite run_eq, fetchData_completion. Qed.

(** C2. A successful upload whose body has a [transactions] property
    replaces the list with it and sets the currency that its metadata
    names; a body that is a bare array replaces the list and keeps the
    currency; either way the five analytics requests follow the upload
    request, and the handler ends as [fetchData] and the clean-up leave
    the state so reached. *)
Theorem upload_two_shapes (file : string) (net : Analytics) (w : World)
    (ts : list Transaction) (c : string) :
  c <> "" ->
  let upload body :=
    exec (handleFileUpload API_BASE (Some file) (Resolved (Ok (inr body))) net) w in
  let refresh_from mid :=
    exec (fetchData API_BASE net ;; setIsUploading false ;; setFileInputValue "") mid in
  let sent :=
    (requests w
     ++ {| url := API_BASE ++ "/upload"; method := "POST"; body := FormData file |}
     :: Spec.analytics_requests API_BASE)%list in
  (exists mid,
     transactions (app mid) = ts /\ currency (app mid) = c
     /\ error (app mid) = None
     /\ upload (WithTransactions ts (Some {| meta_currency := Some c |}))
        = refresh_from mid
     /\ requests (upload (WithTransactions ts (Some {| meta_currency := Some c |})))
        = sent)
  /\ (exists mid,
        transactions (app mid) = ts /\ currency (app mid) = currency (app w)
        /\ error (app mid) = None
        /\ upload (BareArray ts) = refresh_from mid
        /\ requests (upload (BareArray ts)) = sent).
Proof.
  intros Hc upload refresh_from sent. subst upload refresh_from sent.
  unfold handleFileUpload. destruct c as [| a c]; [contradiction |].
  destruct w as [[u l e t ms cu su sp tr me fi] ch sn rq co].
  pose (q := {| url := API_BASE ++ "/upload"; method := "POST";
                body := FormData file |}).
  split.
  - exists (mkWorld (mkApp true l None ts ms (String a c) su sp tr me fi)
              ch sn (rq ++ [q]) co).
    run. cbn [JS.truthy_str]. run. rewrite !fetchData_run. cbv beta iota.
    repeat (split; [reflexivity |]).
    etransitivity; [apply fetchData_requests |]. cbn. now rewrite <- app_assoc.
  - exists (mkWorld (mkApp true l None ts ms cu su sp tr me fi)
              ch sn (rq ++ [q]) co).
    run. cbn [JS.truthy_str]. run. rewrite !fetchData_run. cbv beta iota.
    repeat (split; [reflexivity |]).
    etransitivity; [apply fetchData_requests |]. cbn. now rewrite <- app_assoc.
Qed.

(** C3. A successful reset empties the transactions, the messages, the
    spending and the trends, sets the currency to USD and stores the
    summary object of the response as it came; a reset that fails shows
    the message of the failure as the error and leaves transactions,
    messages, summary, spending, trends and currency as they were. *)
Theorem reset_all_or_nothing (r : FetchOutcome SummaryMetrics) (w : World) :
  let after := app (exec (handleRefresh API_BASE r) w) in
  completion (handleRefresh API_BASE r) w = Normal tt
  /\ (forall emptySummary, r = Resolved (Ok (inr emptySummary)) ->
        transactions after = [] /\ messages after = []
        /\ spending after = [] /\ trends after = []
        /\ currency after = "USD" /\ summary after = emptySummary)
  /\ (~ Spec.succeeded r ->
        transactions after = transactions (app w)
        /\ messages after = messages (app w)
        /\ summary after = summary (app w)
        /\ spending after = spending (app w)
        /\ trends after = trends (app w)
        /\ currency after = currency (app w))
  /\ (forall m, r = Rejected (ErrorObj m) \/ r = Resolved (Ok (inl (ErrorObj m))) ->
        error after = Some m)
  /\ (forall parsed, r = Resolved (NotOk parsed) ->
        error after = Some "Failed to reset dashboard data").
Proof.
  intros after.
  split; [unfold handleRefresh; now answer |].
  remember after as s eqn:E. subst after. revert E.
  unfold handleRefresh, Spec.succeeded.
  destruct r as [[m |] | [[[m |] | emptySummary] | parsed]]; run; intros ->; cbn;
    (split; [intros ? [=]; subst; now repeat split |]);
    (split; [intros H; try (now repeat split); exfalso; apply H; eauto |]);
    (split; [intros ? [[=] | [=]]; now subst | now intros ? [=]]).
Qed.

(** The answers that the handler did not look at, case by case. *)
Ltac unread :=
  repeat match goal with
         | x : FetchOutcome _ |- _ => destruct x
         | x : HttpResponse _ |- _ => destruct x
         | x : sum Thrown _ |- _ => destruct x
         end.

Lemma fetchData_currency (net : Analytics) (w : World) :
  currency (app (exec (fetchData API_BASE net) w))
  = Behaviour.tag_or (Behaviour.applied_list net) (currency (app w)).
Proof.
  remember (currency (app (exec (fetchData API_BASE net) w))) as c eqn:E.
  revert E. destruct net as [r1 r2 r3 r4 r5]. cells w. unfold fetchData.
  answer; intros ->; unread;
    cbv [Behaviour.tag_or Behaviour.applied_list Behaviour.body_parses
         Spec.list_tag Spec.first_tag summary_res spending_res trends_res
         merchants_res transactions_res andb app currency];
    repeat match goal with
           | H : JS.truthy_str _ = _ |- _ => rewrite H
           end;
    reflexivity.
Qed.

(** C7, as the code has it. When the upload is answered with a status
    that is not 2xx and a body that parses, the error shown is the
    [detail] of the body, or else the fixed text; the [message] of the
    body is not looked at, and the transaction list keeps its value. For
    a body that has a [message] and no [detail] the handler shows the
    fixed text, where the API client reports the [message]. *)
Theorem upload_error_skips_message (file : string) (net : Analytics) (w : World)
    (d m : option string) :
  let answered body := Resolved (NotOk (inr body)) in
  let after body :=
    app (exec (handleFileUpload API_BASE (Some file) (answered body) net) w) in
  error (after {| detail := d; message := m |}) = Some (JS.or_else d "Upload failed")
  /\ transactions (after {| detail := d; message := m |}) = transactions (app w)
  /\ error (after {| detail := None; message := Some "File too large" |})
     = Some "Upload failed"
  /\ ApiClient.errorMessage
       (inr {| detail := None; message := Some "File too large" |}) "413"
     = "File too large".
Proof.
  unfold handleFileUpload. run. now repeat split.
Qed.

(** Every request of the handlers of [App.tsx] goes to [API_BASE]. *)
Lemma requests_under_base (w : World) :
  (forall net, exists new,
      requests (exec (fetchData API_BASE net) w) = (requests w ++ new)%list
      /\ Forall (Spec.under API_BASE) new)
  /\ (forall r, exists new,
        requests (exec (handleRefresh API_BASE r) w) = (requests w ++ new)%list
        /\ Forall (Spec.under API_BASE) new)
  /\ (forall file r net, exists new,
        requests (exec (handleFileUpload API_BASE file r net) w)
        = (requests w ++ new)%list
        /\ Forall (Spec.under API_BASE) new)
  /\ (forall r, exists new,
        requests (exec (fetchSnapshot API_BASE r) w) = (requests w ++ new)%list
        /\ Forall (Spec.under API_BASE) new).
Proof.
  assert (Hfive : Forall (Spec.under API_BASE) (Spec.analytics_requests API_BASE)).
  { repeat constructor; eexists; reflexivity. }
  repeat match goal with |- _ /\ _ => split end.
  - intros net. eexists. split; [apply fetchData_requests | exact Hfive].
  - intros r. exists [{| url := API_BASE ++ "/analytics/reset"; method := "POST";
                         body := NoBody |}].
    split; [| repeat constructor; eexists; reflexivity].
    cells w. unfold handleRefresh. now answer.
  - intros [file |] r net.
    + unfold handleFileUpload. cells w.
      destruct r as [e | [[e | [ts meta | ts]] | parsed]].
      3, 4: exists ({| url := API_BASE ++ "/upload"; method := "POST";
                       body := FormData file |}
                    :: Spec.analytics_requests API_BASE);
        (split; [| constructor; [eexists; reflexivity | exact Hfive]]);
        answer; rewrite ?fetchData_run; cbv beta iota;
        (etransitivity; [apply fetchData_requests |]);
        cbn; now rewrite <- app_assoc.
      all: exists [{| url := API_BASE ++ "/upload"; method := "POST";
                      body := FormData file |}];
        (split; [| repeat constructor; eexists; reflexivity]); now answer.
    + exists []. split; [| constructor]. cbn. now rewrite app_nil_r.
  - intros r. exists [{| url := API_BASE ++ "/chat"; method := "POST";
                         body := Json "Get snapshot" [] "TRANSACTIONS_PAGE" |}].
    split; [| repeat constructor; eexists; reflexivity].
    cells w. unfold fetchSnapshot. now answer.
Qed.

Lemma handleRefresh_currency (r : FetchOutcome SummaryMetrics) (w : World) :
  let after := currency (app (exec (handleRefresh API_BASE r) w)) in
  (Spec.succeeded r -> after = "USD")
  /\ (~ Spec.succeeded r -> after = currency (app w)).
Proof.
  intros after. remember after as c eqn:E. subst after. revert E.
  cells w. unfold handleRefresh, Spec.succeeded.
  answer; intros ->; (split; [intros [v [=]] | intros H]);
    try reflexivity; exfalso; apply H; eauto.
Qed.

Lemma handleFileUpload_currency (file : string) (r : FetchOutcome UploadBody)
    (net : Analytics) (w : World) :
  currency (app (exec (handleFileUpload API_BASE (Some file) r net) w))
  = Behaviour.currency_after_upload r net (currency (app w)).
Proof.
  cells w. unfold handleFileUpload, Behaviour.currency_after_upload,
    Spec.metadata_currency.
  destruct r as [e | [[e | [ts [[meta] |] | ts]] | parsed]].
  3: destruct (JS.truthy_str meta) as [c |] eqn:Em.
  3, 4, 5, 6: run; rewrite ?Em; cbn [JS.truthy_str]; run;
    rewrite fetchData_run; cbv beta iota;
    match goal with
    | |- context [exec (fetchData API_BASE ?n) ?W] =>
        exact (fetchData_currency n W)
    end.
  all: now answer.
Qed.

Lemma fetchSnapshot_currency (r : FetchOutcome ChatBody) (w : World) :
  currency (app (exec (fetchSnapshot API_BASE r) w)) = currency (app w).
Proof. cells w. unfold fetchSnapshot. now answer. Qed.

End Handlers.

(** *** The chat panel *)

Section Chat.
(** [String.prototype.trim], whatever the platform makes of it. *)
Variable trim : string -> string.

Lemma sendMessage_idle (r : FetchOutcome ChatBody) (w : World) :
  trim (input (chat w)) = "" \/ isLoading (chat w) = true ->
  exec (sendMessage trim r) w = w.
Proof.
  cells w. cbn [input isLoading chat]. intros H. unfold sendMessage. run.
  destruct H as [-> | ->]; [reflexivity |]. now rewrite orb_true_r.
Qed.

Lemma sendMessage_request (r : FetchOutcome ChatBody) (w : World) :
  trim (input (chat w)) <> "" -> isLoading (chat w) = false ->
  requests (exec (sendMessage trim r) w)
  = (requests w
     ++ [{| url := "http://localhost:8000/api/v1/chat/"; method := "POST";
            body := Json (trim (input (chat w)))
                      (map history_entry (messages (app w)))
                      "FINANCIAL_AI_PAGE" |}])%list.
Proof.
  cells w. cbn [input isLoading chat app messages requests]. intros Hin ->.
  unfold sendMessage. run.
  rewrite (proj2 (String.eqb_neq _ _) Hin). cbn [orb]. now answer.
Qed.

Lemma sendMessage_currency (r : FetchOutcome ChatBody) (w : World) :
  currency (app (exec (sendMessage trim r) w)) = currency (app w).
Proof.
  cells w. unfold sendMessage. run.
  destruct (String.eqb (trim input0) "" || isLoading0); now answer.
Qed.

(** C6. A chat turn whose request is rejected or answered with a status
    that is not 2xx ends normally, with the history longer by the user
    message and one bot message that carries the fixed fallback text.
    The turn is one that passes the guard of the handler, for the
    [trim] of the platform. *)
Theorem chat_failure_appends_fallback (r : FetchOutcome ChatBody) (w : World) :
  trim (input (chat w)) <> "" -> isLoading (chat w) = false ->
  Spec.failed r ->
  let after := exec (sendMessage trim r) w in
  completion (sendMessage trim r) w = Normal tt
  /\ messages (app after)
     = (messages (app w)
        ++ [{| role := user; content := trim (input (chat w)) |};
            {| role := bot; content := fallback |}])%list
  /\ List.length (messages (app after))
     = (List.length (messages (app w)) + 2)%nat.
Proof.
  cells w. cbn [input isLoading chat app messages]. intros Hin -> Hr.
  unfold sendMessage. run.
  rewrite (proj2 (String.eqb_neq _ _) Hin). cbn [orb].
  destruct r as [e | [parsed | parsed]]; [| contradiction |]; run;
    rewrite <- app_assoc, !length_app; now repeat split.
Qed.

End Chat.

(** C8, as the code has it. The currency changes in three ways only.
    [fetchData] sets it to the currency tag of the first element of the
    list it stores, when it stores one and that list is not empty and
    has the tag there, and keeps it otherwise. An upload that succeeds
    first sets it to the currency of the metadata of the body, when the
    body has one, and then refreshes; an upload that fails keeps it. A
    successful reset sets it to USD; a failed one keeps it. A chat turn
    and the snapshot request keep it. *)
Theorem currency_sources (API_BASE : string) (w : World) :
  let before := currency (app w) in
  (forall net,
      currency (app (exec (fetchData API_BASE net) w))
      = Behaviour.tag_or (Behaviour.applied_list net) before)
  /\ (forall file r net,
        currency (app (exec (handleFileUpload API_BASE (Some file) r net) w))
        = Behaviour.currency_after_upload r net before)
  /\ (forall r,
        let after := currency (app (exec (handleRefresh API_BASE r) w)) in
        (Spec.succeeded r -> after = "USD")
        /\ (~ Spec.succeeded r -> after = before))
  /\ (forall trim r, currency (app (exec (sendMessage trim r) w)) = before)
  /\ (forall r, currency (app (exec (fetchSnapshot API_BASE r) w)) = before).
Proof.
  intros before. subst before. repeat match goal with |- _ /\ _ => split end.
  - intros net. apply fetchData_currency.
  - intros file r net. apply handleFileUpload_currency.
  - intros r. apply handleRefresh_currency.
  - intros trim r. apply sendMessage_currency.
  - intros r. apply fetchSnapshot_currency.
Qed.

End AppFacts.

(** ** The properties at sample inputs *)

Module Instances.
Import Model Net App.

Example search_ignores_case :
  TransactionTable.filterSort JS.toLowerCase_ascii Sample.getTime
    [Sample.rent; Sample.coffee; Sample.salary] "FOOD"
    TransactionTable.all TransactionTable.desc
  = [Sample.coffee].
Proof. reflexivity. Qed.

Example newest_first :
  TransactionTable.filterSort JS.toLowerCase_ascii Sample.getTime
    [Sample.rent; Sample.coffee; Sample.salary] ""
    TransactionTable.all TransactionTable.desc
  = [Sample.coffee; Sample.salary; Sample.rent].
Proof. reflexivity. Qed.

Example debits_oldest_first :
  TransactionTable.filterSort JS.toLowerCase_ascii Sample.getTime
    [Sample.coffee; Sample.salary; Sample.rent] ""
    TransactionTable.debit TransactionTable.asc
  = [Sample.rent; Sample.coffee].
Proof. reflexivity. Qed.

Example trim_input :
  JS.trim_ascii "  Summarize my spending " = "Summarize my spending".
Proof. reflexivity. Qed.

Example base_of_environment : Config.API_BASE Sample.VITE_API_BASE = inr Sample.base.
Proof. reflexivity. Qed.

(** The merchants endpoint answers 500: the summary is the new one, the
    merchants are the old ones. *)
Example merchants_500_refresh :
  let after := app (exec (fetchData Sample.base Sample.merchants_500) Sample.busy) in
  summary after = Sample.march_summary
  /\ merchants after = merchants (app Sample.busy)
  /\ transactions after = [Sample.coffee; Sample.salary; Sample.rent]
  /\ currency after = "EUR"
  /\ isLoadingData after = false.
Proof. now vm_compute. Qed.

(** The request for the merchants does not get through: the summary, whose
    request was answered, keeps its old value. *)
Lemma transport_failure_blocks_siblings :
  ~ Spec.independently_applied Sample.merchants_down (app Sample.busy)
      (app (exec (fetchData Sample.base Sample.merchants_down) Sample.busy)).
Proof. intros [H _]. vm_compute in H. discriminate H. Qed.

(** A reset fetches no transaction list and moves the currency from EUR
    to USD; an upload whose metadata names EUR, followed by a refresh
    that gets no transaction list, moves it from USD to EUR. *)
Lemma currency_changes_without_list :
  ~ Spec.currency_from_list None (currency (app Sample.busy))
      (currency (app (exec (handleRefresh Sample.base
                              (Resolved (Ok (inr Sample.zero_summary))))
                        Sample.busy)))
  /\ ~ Spec.currency_from_list
         (Spec.fetched_list (transactions_res Sample.transactions_down))
         (currency (app initialWorld))
         (currency (app (exec (handleFileUpload Sample.base (Some "statement.csv")
                                 Sample.eur_upload Sample.transactions_down)
                           initialWorld))).
Proof.
  split; intros [H | H]; vm_compute in H; discriminate H.
Qed.

(** C9, as the code has it. The module of [App.tsx] throws when
    [VITE_API_BASE] is absent or empty, and derives [API_BASE] from it
    otherwise; the request of a chat turn goes to a fixed local address,
    which is not under that base. The turn is the one of the sample
    world, for any [trim] that trims its input as the platform does. *)
Theorem chat_turn_leaves_base :
  Config.API_BASE None
  = inl (ErrorObj "VITE_API_BASE is not defined in environment variables")
  /\ Config.API_BASE (Some "")
     = inl (ErrorObj "VITE_API_BASE is not defined in environment variables")
  /\ Config.API_BASE Sample.VITE_API_BASE = inr Sample.base
  /\ (forall trim r,
        trim "  Summarize my spending " = "Summarize my spending" ->
        requests (exec (sendMessage trim r) Sample.busy)
        = [{| url := "http://localhost:8000/api/v1/chat/"; method := "POST";
              body := Json "Summarize my spending"
                        [("user", "hello"); ("assistant", "hi")]
                        "FINANCIAL_AI_PAGE" |}])
  /\ (forall trim r,
        trim "  Summarize my spending " = "Summarize my spending" ->
        ~ Forall (Spec.under Sample.base)
            (requests (exec (sendMessage trim r) Sample.busy))).
Proof.
  assert (H : forall trim r,
             trim "  Summarize my spending " = "Summarize my spending" ->
             requests (exec (sendMessage trim r) Sample.busy)
             = [{| url := "http://localhost:8000/api/v1/chat/"; method := "POST";
                   body := Json "Summarize my spending"
                             [("user", "hello"); ("assistant", "hi")]
                             "FINANCIAL_AI_PAGE" |}]).
  { intros trim r Ht. rewrite AppFacts.sendMessage_request.
    - cbn [Sample.busy chat input app messages requests]. now rewrite Ht.
    - cbn [Sample.busy chat input]. rewrite Ht. discriminate.
    - reflexivity. }
  repeat split; try reflexivity; [exact H |].
  intros trim r Ht HF. rewrite (H trim r Ht) in HF.
  inversion HF as [| q l [path E] _].
  vm_compute in E. discriminate E.
Qed.

(** The chat turn of the sample world, with the trim of ASCII. *)
Lemma chat_turn_leaves_base_witness :
  JS.trim_ascii "  Summarize my spending " = "Summarize my spending"
  /\ ~ Forall (Spec.under Sample.base)
        (requests (exec (sendMessage JS.trim_ascii
                           (Rejected (ErrorObj "Failed to fetch")))
                     Sample.busy)).
Proof.
  split; [reflexivity |].
  destruct chat_turn_leaves_base as [_ [_ [_ [_ H]]]].
  exact (H JS.trim_ascii (Rejected (ErrorObj "Failed to fetch")) eq_refl).
Defined.

(** The refresh of the sample world when the merchants endpoint answers
    500: all five responses arrived, and each slice follows its own. *)
Lemma fetchData_applies_arrived_responses_witness :
  Spec.all_arrived Sample.merchants_500
  /\ Spec.all_parse Sample.merchants_500
  /\ Spec.independently_applied Sample.merchants_500 (app Sample.busy)
       (app (exec (fetchData Sample.base Sample.merchants_500) Sample.busy)).
Proof.
  assert (Ha : Spec.all_arrived Sample.merchants_500) by (vm_compute; tauto).
  assert (Hp : Spec.all_parse Sample.merchants_500) by (vm_compute; tauto).
  split; [exact Ha |]. split; [exact Hp |].
  exact (proj1 (proj2 (AppFacts.fetchData_applies_arrived_responses
                         Sample.base Sample.merchants_500 Sample.busy)) Ha Hp).
Defined.

(** An upload answered with two transactions and the currency EUR. *)
Lemma upload_two_shapes_witness :
  "EUR" <> ""
  /\ exists mid,
       transactions (app mid) = [Sample.coffee; Sample.salary]
       /\ currency (app mid) = "EUR"
       /\ exec (handleFileUpload Sample.base (Some "statement.csv")
                  Sample.eur_upload Sample.all_ok) initialWorld
          = exec (fetchData Sample.base Sample.all_ok ;; setIsUploading false ;;
                  setFileInputValue "") mid.
Proof.
  assert (Hc : "EUR" <> "") by discriminate.
  split; [exact Hc |].
  destruct (AppFacts.upload_two_shapes Sample.base "statement.csv" Sample.all_ok
              initialWorld [Sample.coffee; Sample.salary] "EUR" Hc)
    as [[mid [Ht [Hcur [_ [Heq _]]]]] _].
  exists mid. split; [exact Ht |]. split; [exact Hcur | exact Heq].
Defined.

(** A successful reset of the sample world. *)
Lemma reset_all_or_nothing_witness :
  let after :=
    app (exec (handleRefresh Sample.base (Resolved (Ok (inr Sample.zero_summary))))
           Sample.busy) in
  transactions after = [] /\ messages after = []
  /\ spending after = [] /\ trends after = []
  /\ currency after = "USD" /\ summary after = Sample.zero_summary.
Proof.
  exact (proj1 (proj2 (AppFacts.reset_all_or_nothing Sample.base
                         (Resolved (Ok (inr Sample.zero_summary))) Sample.busy))
           Sample.zero_summary eq_refl).
Defined.

(** Thirty-seven rows in pages of 25: the second page has twelve. *)
Lemma pagination_by_pageSize_witness :
  TransactionTable.limit Sample.history_table = None
  /\ TransactionTable.pageSize Sample.history_table = Some 25
  /\ 0 < 25
  /\ List.length
       (TransactionTable.paginatedTransactions JS.toLowerCase_ascii Sample.getTime
          Sample.history_table
          (TransactionTable.setCurrentPage (fun _ => 2) TransactionTable.initial))
     = 12%nat.
Proof.
  split; [reflexivity |]. split; [reflexivity |]. split; [reflexivity |].
  pose proof (TransactionTableFacts.pagination_by_pageSize JS.toLowerCase_ascii
                Sample.getTime Sample.history_table TransactionTable.initial 25
                eq_refl eq_refl eq_refl) as H.
  destruct H as [_ [_ [_ [_ [_ [_ H]]]]]].
  destruct (H eq_refl eq_refl) as [_ [H2 [H3 _]]].
  rewrite H2. exact H3.
Defined.

(** A limit of 10 beside a page size of 25, on page 2: the first ten rows. *)
Lemma limit_takes_precedence_witness :
  TransactionTable.limit Sample.both_table = Some 10
  /\ 0 < 10
  /\ TransactionTable.paginatedTransactions JS.toLowerCase_ascii Sample.getTime
       Sample.both_table
       (TransactionTable.setCurrentPage (fun _ => 2) TransactionTable.initial)
     = firstn 10
         (TransactionTable.filteredTransactions JS.toLowerCase_ascii
            Sample.getTime Sample.both_table TransactionTable.initial).
Proof.
  split; [reflexivity |]. split; [reflexivity |].
  exact (proj1 (TransactionTableFacts.limit_takes_precedence JS.toLowerCase_ascii
                  Sample.getTime Sample.both_table
                  (TransactionTable.setCurrentPage (fun _ => 2)
                     TransactionTable.initial)
                  10 eq_refl eq_refl)).
Defined.

(** A chat turn whose request does not get through. *)
Lemma chat_failure_appends_fallback_witness :
  JS.trim_ascii (input (chat Sample.busy)) <> ""
  /\ isLoading (chat Sample.busy) = false
  /\ Spec.failed (A := ChatBody) (Rejected (ErrorObj "Failed to fetch"))
  /\ messages (app (exec (sendMessage JS.trim_ascii
                            (Rejected (ErrorObj "Failed to fetch")))
                      Sample.busy))
     = [{| role := user; content := "hello" |};
        {| role := bot; content := "hi" |};
        {| role := user; content := "Summarize my spending" |};
        {| role := bot; content := fallback |}].
Proof.
  assert (Hin : JS.trim_ascii (input (chat Sample.busy)) <> "")
    by (vm_compute; discriminate).
  split; [exact Hin |]. split; [reflexivity |]. split; [exact I |].
  exact (proj1 (proj2 (AppFacts.chat_failure_appends_fallback JS.trim_ascii
                         (Rejected (ErrorObj "Failed to fetch")) Sample.busy
                         Hin eq_refl I))).
Defined.

(** A successful reset of a world that shows euros. *)
Lemma currency_sources_witness :
  Spec.succeeded (Resolved (Ok (inr Sample.zero_summary)))
  /\ currency (app (exec (handleRefresh Sample.base
                            (Resolved (Ok (inr Sample.zero_summary))))
                      Sample.busy)) = "USD".
Proof.
  assert (Hs : Spec.succeeded (Resolved (Ok (inr Sample.zero_summary))))
    by (exists Sample.zero_summary; reflexivity).
  split; [exact Hs |].
  destruct (AppFacts.currency_sources Sample.base Sample.busy) as [_ [_ [H _]]].
  exact (proj1 (H (Resolved (Ok (inr Sample.zero_summary)))) Hs).
Defined.

End Instances.

(** ** The order of the view *)

Module TableOrder.
Import Model TransactionTable.

Lemma Sorted_weaken {A : Type} (R R' : A -> A -> Prop) (l : list A) :
  (forall a b, In a l -> In b l -> R a b -> R' a b) ->
  Sorted R l -> Sorted R' l.
Proof.
  intros H HS. induction HS as [| a l HS IH HR]; [constructor |].
  constructor.
  - apply IH. intros x y Hx Hy. apply H; now right.
  - destruct HR as [| b l Hab]; constructor.
    apply H; [now left | right; now left | exact Hab].
Qed.

Lemma StronglySorted_snoc {A : Type} (R : A -> A -> Prop) (l : list A) (a : A) :
  StronglySorted R l -> Forall (fun x => R x a) l -> StronglySorted R (l ++ [a]).
Proof.
  induction 1 as [| b l HS IH Hb]; intros HF; simpl.
  - repeat constructor.
  - inversion HF as [| ? ? Hba HF']; subst. constructor; [now apply IH |].
    apply Forall_app. split; [exact Hb | now constructor].
Qed.

Lemma StronglySorted_rev {A : Type} (R : A -> A -> Prop) (l : list A) :
  StronglySorted R l -> StronglySorted (fun a b => R b a) (rev l).
Proof.
  induction 1 as [| a l HS IH Ha]; simpl; [constructor |].
  apply StronglySorted_snoc; [exact IH |].
  apply Forall_rev. exact Ha.
Qed.

(** Two lists in the same strict order that hold the same elements are
    the same list. *)
Lemma sorted_perm_unique {A : Type} (R : A -> A -> Prop) (l1 l2 : list A) :
  (forall a b, In a l1 -> In b l1 -> R a b -> R b a -> a = b) ->
  StronglySorted R l1 -> StronglySorted R l2 -> Permutation l1 l2 -> l1 = l2.
Proof.
  revert l2. induction l1 as [| a l1 IH]; intros l2 Hanti H1 H2 HP.
  - apply Permutation_nil in HP. now subst.
  - destruct l2 as [| b l2]; [apply Permutation_sym, Permutation_nil in HP; discriminate |].
    inversion H1 as [| ? ? H1' Ha]; subst. inversion H2 as [| ? ? H2' Hb]; subst.
    assert (E : a = b).
    { assert (Hb1 : In b (a :: l1)) by (apply (Permutation_in b (Permutation_sym HP)); now left).
      assert (Ha2 : In a (b :: l2)) by (apply (Permutation_in a HP); now left).
      destruct Hb1 as [-> | Hb1]; [reflexivity |].
      destruct Ha2 as [<- | Ha2]; [reflexivity |].
      rewrite Forall_forall in Ha, Hb.
      apply Hanti; [now left | now right | now apply Ha | now apply Hb]. }
    subst b. f_equal. apply IH; try assumption.
    + intros x y Hx Hy. apply Hanti; now right.
    + now apply Permutation_cons_inv in HP.
Qed.

Lemma StronglySorted_weaken {A : Type} (R R' : A -> A -> Prop) (l : list A) :
  (forall a b, R a b -> R' a b) -> StronglySorted R l -> StronglySorted R' l.
Proof.
  intros H. induction 1 as [| a l HS IH Ha]; constructor; [exact IH |].
  revert Ha. apply Forall_impl. apply H.
Qed.

Section Engine.
Variable toLowerCase : string -> string.
Variable getTime : string -> option Z.

#[local] Instance in_order_trans (o : SortOrder) :
  Transitive (Behaviour.in_order getTime o).
Proof.
  intros a b c. unfold Behaviour.in_order.
  destruct (Behaviour.stamp getTime a), (Behaviour.stamp getTime b),
    (Behaviour.stamp getTime c), o; try tauto; lia.
Qed.

Lemma before_in_order (o : SortOrder) (a b : Transaction) :
  getTime (date a) <> None -> getTime (date b) <> None ->
  JS.before (byDate getTime o) a b -> Behaviour.in_order getTime o a b.
Proof.
  unfold JS.before, JS.sort_compare, byDate, Behaviour.in_order, Behaviour.stamp.
  destruct (getTime (date a)), (getTime (date b)), o; try tauto; lia.
Qed.

Lemma filterSort_ordered (L : list Transaction) (s : string) (f : FilterType)
    (o : SortOrder) :
  (forall t, In t L -> getTime (date t) <> None) ->
  StronglySorted (Behaviour.in_order getTime o)
    (filterSort toLowerCase getTime L s f o).
Proof.
  intros Hparse. apply Sorted_StronglySorted; [apply in_order_trans |].
  apply (Sorted_weaken (JS.before (byDate getTime o))).
  - intros a b Ha Hb. apply before_in_order; apply Hparse;
      [apply (TransactionTableFacts.filterSort_In toLowerCase getTime L s f o a), Ha
      | apply (TransactionTableFacts.filterSort_In toLowerCase getTime L s f o b), Hb].
  - apply JSFacts.sort_sorted, TransactionTableFacts.byDate_total.
Qed.

(** X1. The filtered view is in the order of the dates, newest first or
    oldest first as the sort order says, when the dates of the list
    parse. *)
Theorem view_is_ordered_by_date (L : list Transaction) (s : string)
    (f : FilterType) (o : SortOrder) :
  (forall t, In t L -> getTime (date t) <> None) ->
  StronglySorted (Behaviour.in_order getTime o)
    (filterSort toLowerCase getTime L s f o).
Proof. apply filterSort_ordered. Qed.



(** X3. Without two transactions of the same date, the view oldest first is
    the view newest first read backwards. *)
Theorem toggled_order_is_reverse (L : list Transaction) (s : string)
    (f : FilterType) :
  (forall t, In t L -> getTime (date t) <> None) ->
  (forall a b, In a L -> In b L -> getTime (date a) = getTime (date b) -> a = b) ->
  filterSort toLowerCase getTime L s f asc
  = rev (filterSort toLowerCase getTime L s f desc).
Proof.
  intros Hparse Hties.
  apply (sorted_perm_unique (Behaviour.in_order getTime asc)).
  - intros a b Ha Hb Hab Hba.
    apply TransactionTableFacts.filterSort_In in Ha as [Ha _].
    apply TransactionTableFacts.filterSort_In in Hb as [Hb _].
    apply Hties; try assumption.
    unfold Behaviour.in_order, Behaviour.stamp in Hab, Hba.
    destruct (getTime (date a)), (getTime (date b)); try tauto. f_equal. lia.
  - now apply filterSort_ordered.
  - apply (StronglySorted_weaken (fun a b => Behaviour.in_order getTime desc b a)).
    + intros a b. unfold Behaviour.in_order.
      now destruct (Behaviour.stamp getTime a), (Behaviour.stamp getTime b).
    + apply StronglySorted_rev. now apply filterSort_ordered.
  - rewrite <- Permutation_rev.
    rewrite !TransactionTableFacts.filterSort_perm. reflexivity.
Qed.

End Engine.
End TableOrder.

(** ** Pages, limits and controls of the table *)

Module TablePages.
Import Model TransactionTable TableControls.

Lemma firstn_plus {A : Type} (n m : nat) (l : list A) :
  firstn (n + m) l = (firstn n l ++ firstn m (skipn n l))%list.
Proof.
  revert l. induction n as [| n IH]; intros l; [reflexivity |].
  destruct l as [| x l]; simpl; [now rewrite firstn_nil | now rewrite IH].
Qed.

(** Consecutive chunks of one size make up a prefix of the list. *)
Lemma chunks_prefix {A : Type} (size m : nat) (l : list A) :
  List.concat (map (fun i => firstn size (skipn (i * size) l)) (seq 0 m))
  = firstn (m * size) l.
Proof.
  induction m as [| m IH]; [reflexivity |].
  rewrite seq_S, map_app, concat_app, IH. simpl.
  rewrite app_nil_r, <- firstn_plus. f_equal. lia.
Qed.

Lemma range_length {A : Type} (from count : Z) (l : list A) :
  0 <= from -> 0 <= count ->
  Z.of_nat (List.length (Spec.range from count l))
  = Z.max 0 (Z.min count (Z.of_nat (List.length l) - from)).
Proof.
  intros Hf Hc. unfold Spec.range. rewrite length_firstn, length_skipn. lia.
Qed.

Section Engine.
Variable toLowerCase : string -> string.
Variable getTime : string -> option Z.

Lemma pages_bounds (p : Props) (s : State) (ps : Z) :
  pageSize p = Some ps -> 0 < ps ->
  (totalPages toLowerCase getTime p s - 1) * ps < Z.of_nat (List.length (filteredTransactions toLowerCase getTime p s)) <= totalPages toLowerCase getTime p s * ps.
Proof.
  intros Hp Hps.
  rewrite (TransactionTableFacts.totalPages_pageSize _ _ _ _ ps) by assumption.
  now apply JSFacts.ceil_div_bounds.
Qed.

(** X4. The pages, one after the other, are the filtered view: every row is
    on exactly one page. *)
Theorem pages_make_up_the_view (p : Props) (s : State) (ps : Z) :
  limit p = None -> pageSize p = Some ps -> 0 < ps ->
  List.concat (map (fun k => paginatedTransactions toLowerCase getTime p (setCurrentPage (fun _ => Z.of_nat k) s))
              (seq 1 (Z.to_nat (totalPages toLowerCase getTime p s))))
  = filteredTransactions toLowerCase getTime p s.
Proof.
  intros Hl Hp Hps.
  pose proof (pages_bounds p s ps Hp Hps) as Hb.
  rewrite <- seq_shift, map_map.
  erewrite map_ext_in.
  - rewrite (chunks_prefix (Z.to_nat ps)). apply firstn_all2. nia.
  - intros i _. cbv beta.
    rewrite (TransactionTableFacts.paginated_pageSize _ _ _ _ ps)
      by (try assumption; cbn; lia).
    unfold Spec.range. cbn [currentPage setCurrentPage].
    rewrite TransactionTableFacts.filtered_setCurrentPage.
    do 2 f_equal. nia.
Qed.

(** X5. How many rows a page shows; a page is empty exactly when it lies
    behind the last page, and every page before the last is full. *)
Theorem page_length (p : Props) (s : State) (ps : Z) :
  limit p = None -> pageSize p = Some ps -> 0 < ps -> 1 <= currentPage s ->
  let n := Z.of_nat (List.length (filteredTransactions toLowerCase getTime p s)) in
  let shown := Z.of_nat (List.length (paginatedTransactions toLowerCase getTime p s)) in
  shown = Z.max 0 (Z.min ps (n - (currentPage s - 1) * ps))
  /\ (paginatedTransactions toLowerCase getTime p s = [] <-> totalPages toLowerCase getTime p s < currentPage s)
  /\ (currentPage s < totalPages toLowerCase getTime p s -> shown = ps).
Proof.
  intros Hl Hp Hps Hc n shown. subst n shown.
  pose proof (pages_bounds p s ps Hp Hps) as Hb.
  rewrite (TransactionTableFacts.paginated_pageSize _ _ _ _ ps) by assumption.
  rewrite range_length by nia.
  split; [reflexivity |]. split.
  - rewrite <- length_zero_iff_nil.
    assert (E : forall l : list Transaction,
               List.length l = 0%nat <-> Z.of_nat (List.length l) = 0) by (intros; lia).
    rewrite E, range_length by nia. nia.
  - intros H. nia.
Qed.

(** X6. A limit of 0 is no limit; a negative limit drops that many rows
    from the end of the view. *)
Theorem limit_not_positive (p : Props) (s : State) (lim : Z) :
  limit p = Some lim -> lim <= 0 ->
  (lim = 0 ->
   forall p', transactions p' = transactions p -> pageSize p' = pageSize p ->
              limit p' = None -> paginatedTransactions toLowerCase getTime p s = paginatedTransactions toLowerCase getTime p' s)
  /\ (lim < 0 ->
      paginatedTransactions toLowerCase getTime p s
      = firstn (Z.to_nat (Z.of_nat (List.length (filteredTransactions toLowerCase getTime p s)) + lim)) (filteredTransactions toLowerCase getTime p s)).
Proof.
  intros Hl Hle. split.
  - intros -> p' Ht Hp Hl'. unfold paginatedTransactions, filteredTransactions.
    now rewrite Hl, Hl', Ht, Hp.
  - intros Hneg. unfold paginatedTransactions. rewrite Hl.
    destruct lim as [| lim | lim]; try lia. cbn [JS.truthy_num].
    unfold JS.slice. cbn [Z.ltb Z.compare].
    rewrite Z.min_l by lia. cbn [Z.to_nat skipn]. f_equal. lia.
Qed.

Lemma keep_everything (t : Transaction) :
  toLowerCase "" = "" -> keep toLowerCase "" all t = true.
Proof.
  intros E. unfold keep, matchesSearch. rewrite E.
  now rewrite JSFacts.includes_empty.
Qed.

(** X7. The view never has more rows than the list, and after the filters
    are cleared it has them all; the button that clears them is then
    gone. *)
Theorem cleared_filters_show_all (p : Props) (s : State) :
  toLowerCase "" = "" ->
  (List.length (filteredTransactions toLowerCase getTime p s) <= List.length (transactions p))%nat
  /\ Permutation (filteredTransactions toLowerCase getTime p (clearFilters s)) (transactions p)
  /\ showClear (clearFilters s) = false.
Proof.
  intros E. split; [| split].
  - unfold filteredTransactions.
    rewrite (Permutation_length (TransactionTableFacts.filterSort_perm _ _ _ _ _ _)).
    apply filter_length_le.
  - unfold filteredTransactions. cbn.
    rewrite TransactionTableFacts.filterSort_perm.
    rewrite JSFacts.filter_id; [reflexivity |].
    intros t _. now apply keep_everything.
  - reflexivity.
Qed.

(** X8. With a page size, the page controls are rendered exactly when
    there is more than one page, and a disabled button would do nothing
    if pressed; when the table has no limit, the label of a page that
    exists counts the rows that the page shows. *)
Theorem page_controls (p : Props) (s : State) (ps : Z) :
  pageSize p = Some ps -> 0 < ps ->
  (showPagination toLowerCase getTime p s = true <-> 1 < totalPages toLowerCase getTime p s)
  /\ (prevDisabled s = true -> handlePrevPage s = s)
  /\ (nextDisabled toLowerCase getTime p s = true ->
      handleNextPage toLowerCase getTime p s = s)
  /\ (limit p = None ->
      1 <= currentPage s <= totalPages toLowerCase getTime p s ->
      labelFrom toLowerCase getTime ps p s = (currentPage s - 1) * ps + 1
      /\ labelTo toLowerCase getTime ps p s - labelFrom toLowerCase getTime ps p s + 1
         = Z.of_nat (List.length (paginatedTransactions toLowerCase getTime p s))).
Proof.
  intros Hp Hps.
  pose proof (pages_bounds p s ps Hp Hps) as Hb.
  split; [| split; [| split]].
  - unfold showPagination. rewrite Hp.
    destruct ps as [| ps' | ps']; try lia. cbn [JS.truthy_num].
    rewrite Z.gtb_ltb, Z.ltb_lt. nia.
  - unfold prevDisabled. rewrite Z.eqb_eq. intros H.
    apply TransactionTableFacts.handlePrevPage_first. lia.
  - unfold nextDisabled. rewrite Z.eqb_eq. intros H.
    apply TransactionTableFacts.handleNextPage_last. lia.
  - intros Hl Hc. unfold labelFrom, labelTo.
    rewrite (TransactionTableFacts.paginated_pageSize _ _ _ _ ps) by (try assumption; lia).
    rewrite range_length by nia. nia.
Qed.

Lemma filter_by_type (L : list Transaction) (s : string) :
  (forall t, In t L -> type t = "credit" \/ type t = "debit") ->
  Permutation (filter (keep toLowerCase s all) L)
    (filter (keep toLowerCase s credit) L ++ filter (keep toLowerCase s debit) L).
Proof.
  induction L as [| x L IH]; intros H; [reflexivity |].
  specialize (IH (fun t Ht => H t (or_intror Ht))).
  cbn [filter].
  assert (Ka : keep toLowerCase s all x = matchesSearch toLowerCase s x)
    by apply andb_true_r.
  assert (Kc : keep toLowerCase s credit x
               = matchesSearch toLowerCase s x && String.eqb (type x) "credit")
    by reflexivity.
  assert (Kd : keep toLowerCase s debit x
               = matchesSearch toLowerCase s x && String.eqb (type x) "debit")
    by reflexivity.
  rewrite Ka, Kc, Kd.
  destruct (matchesSearch toLowerCase s x); cbn [andb]; [| exact IH].
  destruct (H x (or_introl eq_refl)) as [E | E]; rewrite E; cbn [String.eqb Ascii.eqb Bool.eqb].
  - cbn. now constructor.
  - cbn. rewrite <- Permutation_middle. now constructor.
Qed.

(** X9. No transaction is in the credit view and in the debit view; when
    every transaction is a credit or a debit, the two views together
    hold what the unfiltered view holds. *)
Theorem type_filters_split_the_view (L : list Transaction) (s : string)
    (o : SortOrder) :
  (forall t, ~ (In t (filterSort toLowerCase getTime L s credit o)
                /\ In t (filterSort toLowerCase getTime L s debit o)))
  /\ ((forall t, In t L -> type t = "credit" \/ type t = "debit") ->
      Permutation (filterSort toLowerCase getTime L s all o)
        (filterSort toLowerCase getTime L s credit o
         ++ filterSort toLowerCase getTime L s debit o)).
Proof.
  split.
  - intros t [Hc Hd].
    apply TransactionTableFacts.filterSort_In in Hc as [_ Hc].
    apply TransactionTableFacts.filterSort_In in Hd as [_ Hd].
    apply TransactionTableFacts.keep_iff in Hc as [_ Hc].
    apply TransactionTableFacts.keep_iff in Hd as [_ Hd].
    cbn in Hc, Hd. congruence.
  - intros H. rewrite !TransactionTableFacts.filterSort_perm.
    now apply filter_by_type.
Qed.

End Engine.
End TablePages.

(** ** More about the handlers *)

Module AppMore.
Import Model Net App AppFacts.

Section Handlers.
Variable API_BASE : string.

(** What [fetchData] does not write. *)
Lemma fetchData_frame (net : Analytics) (w : World) :
  let w' := exec (fetchData API_BASE net) w in
  isLoadingData (app w') = false
  /\ error (app w') = error (app w)
  /\ messages (app w') = messages (app w)
  /\ isUploading (app w') = isUploading (app w)
  /\ fileInputValue (app w') = fileInputValue (app w)
  /\ chat w' = chat w
  /\ snapshot w' = snapshot w.
Proof.
  intros w'. remember w' as v eqn:E. subst w'. revert E.
  destruct net as [r1 r2 r3 r4 r5]. cells w. unfold fetchData.
  answer; intros ->; cbn; now repeat split.
Qed.

(** X10. Whatever the five answers are, a refresh sends the same five GET
    requests in the same order, ends with the loading flag down, and
    writes neither the error, the messages, the upload flag, the file
    input, nor the state of the chat panel and of the snapshot card. *)
Theorem refresh_requests_and_frame (net : Analytics) (w : World) :
  let w' := exec (fetchData API_BASE net) w in
  requests w' = (requests w ++ Spec.analytics_requests API_BASE)%list
  /\ isLoadingData (app w') = false
  /\ error (app w') = error (app w)
  /\ messages (app w') = messages (app w)
  /\ isUploading (app w') = isUploading (app w)
  /\ fileInputValue (app w') = fileInputValue (app w)
  /\ chat w' = chat w
  /\ snapshot w' = snapshot w.
Proof.
  split; [apply fetchData_requests | apply fetchData_frame].
Qed.

(** X11. An upload of a file ends normally with the upload flag down and the
    file input emptied, whatever the answers are; the error it leaves
    is the message of the failure, and none after a success; the
    messages are never written. *)
Theorem upload_always_cleans_up (file : string) (r : FetchOutcome UploadBody)
    (net : Analytics) (w : World) :
  let w' := exec (handleFileUpload API_BASE (Some file) r net) w in
  completion (handleFileUpload API_BASE (Some file) r net) w = Normal tt
  /\ isUploading (app w') = false
  /\ fileInputValue (app w') = ""
  /\ error (app w') = Behaviour.upload_error r
  /\ messages (app w') = messages (app w).
Proof.
  intros w'. subst w'. cells w. unfold handleFileUpload, Behaviour.upload_error.
  destruct r as [e | [[e | [ts meta | ts]] | [e | errData]]].
  3, 4: run;
    try (destruct (JS.truthy_str _); run);
    rewrite !fetchData_run; cbv beta iota;
    match goal with
    | |- context [exec (fetchData API_BASE ?n) ?W] =>
        destruct (fetchData_frame n W) as [_ [He [Hm _]]];
        cbn in He, Hm
    end;
    repeat split; assumption.
  all: answer; now repeat split.
Qed.

(** X12. An upload that fails sends the upload request and nothing else: no
    refresh follows, and the five slices and the currency keep their
    values. *)
Theorem failed_upload_changes_no_data (file : string) (r : FetchOutcome UploadBody)
    (net : Analytics) (w : World) :
  ~ Spec.succeeded r ->
  let w' := exec (handleFileUpload API_BASE (Some file) r net) w in
  requests w'
  = (requests w ++ [{| url := API_BASE ++ "/upload"; method := "POST";
                       body := FormData file |}])%list
  /\ Spec.slices_kept (app w) (app w')
  /\ currency (app w') = currency (app w).
Proof.
  intros Hr w'. subst w'. cells w. unfold handleFileUpload, Spec.slices_kept.
  destruct r as [e | [[e | body] | [e | errData]]];
    [| | exfalso; apply Hr; now exists body | |];
    answer; now repeat split.
Qed.

(** X13. After a successful upload each slice holds the body of its own
    refresh response, or else what it held before the refresh: for the
    transactions that is the list of the upload body. When the refresh
    gets all five responses and they parse, the list shown is the one
    of the transactions endpoint if that answered 2xx. *)
Theorem refresh_overrides_uploaded_list (file : string) (body : UploadBody)
    (net : Analytics) (w : World) :
  let after :=
    app (exec (handleFileUpload API_BASE (Some file)
                 (Resolved (Ok (inr body))) net) w) in
  Spec.old_or_own (transactions_res net) (Behaviour.uploaded body)
    (transactions after)
  /\ Spec.old_or_own (summary_res net) (summary (app w)) (summary after)
  /\ Spec.old_or_own (spending_res net) (spending (app w)) (spending after)
  /\ Spec.old_or_own (trends_res net) (trends (app w)) (trends after)
  /\ Spec.old_or_own (merchants_res net) (merchants (app w)) (merchants after)
  /\ (Spec.all_arrived net -> Spec.all_parse net ->
      transactions after
      = Spec.applied (transactions_res net) (Behaviour.uploaded body)).
Proof.
  intros after. subst after. cells w. unfold handleFileUpload.
  destruct body as [ts meta | ts]; run;
    try (destruct (JS.truthy_str _); run);
    rewrite !fetchData_run; cbv beta iota;
    match goal with
    | |- context [exec (fetchData API_BASE ?n) ?W] =>
        destruct (fetchData_slices API_BASE n W) as [Hall [_ Hno]];
        destruct Hno as [H1 [H2 [H3 [H4 H5]]]];
        cbn in Hall, H1, H2, H3, H4, H5
    end;
    (repeat split; try assumption);
    intros Ha Hp; destruct (Hall Ha Hp) as [_ [_ [_ [_ Ht]]]]; exact Ht.
Qed.

(** X14. A reset sends one POST to the reset endpoint and ends normally with
    the loading flag down; it never writes the merchants, not even when
    it succeeds, nor the upload flag, the file input, the chat panel or
    the snapshot card; after a success no error is shown. *)
Theorem reset_requests_and_frame (r : FetchOutcome SummaryMetrics) (w : World) :
  let w' := exec (handleRefresh API_BASE r) w in
  requests w'
  = (requests w ++ [{| url := API_BASE ++ "/analytics/reset"; method := "POST";
                       body := NoBody |}])%list
  /\ isLoadingData (app w') = false
  /\ merchants (app w') = merchants (app w)
  /\ isUploading (app w') = isUploading (app w)
  /\ fileInputValue (app w') = fileInputValue (app w)
  /\ chat w' = chat w
  /\ snapshot w' = snapshot w
  /\ (Spec.succeeded r -> error (app w') = None).
Proof.
  intros w'. remember w' as v eqn:E. subst w'. revert E.
  cells w. unfold handleRefresh, Spec.succeeded.
  answer; intros ->; cbn; repeat split; try reflexivity; now intros [v [=]].
Qed.

(** X15. The snapshot request is one POST under the base with an empty
    history. It ends normally with the loading flag down. The card shows
    the text of a 2xx answer, keeps its text on any other status, and
    shows the fixed failure text when the request or the body fails.
    The state of the application and of the chat panel is not written. *)
Theorem snapshot_outcomes (r : FetchOutcome ChatBody) (w : World) :
  let w' := exec (fetchSnapshot API_BASE r) w in
  completion (fetchSnapshot API_BASE r) w = Normal tt
  /\ requests w'
     = (requests w ++ [{| url := API_BASE ++ "/chat"; method := "POST";
                          body := Json "Get snapshot" [] "TRANSACTIONS_PAGE" |}])%list
  /\ snapshot_content (snapshot w')
     = Behaviour.snapshot_text r (snapshot_content (snapshot w))
  /\ loading (snapshot w') = false
  /\ app w' = app w
  /\ chat w' = chat w.
Proof.
  intros w'. split; [cells w; unfold fetchSnapshot; now answer |].
  remember w' as v eqn:E. subst w'. revert E.
  cells w. unfold fetchSnapshot, Behaviour.snapshot_text.
  answer; intros ->; cbn; now repeat split.
Qed.

End Handlers.

Section Chat.
(** [String.prototype.trim], whatever the platform makes of it. *)
Variable trim : string -> string.

(** X16. Every call of [sendMessage] ends normally. When the trimmed
    input is empty or the flag [isLoading] of the panel is up it changes
    nothing; otherwise it sends one request, which carries the trimmed
    input and the history as it was before the turn, and it ends with
    the history longer by the user message and one bot message (the
    text of the answer, or the fallback text), the input emptied and
    the flag down. *)
Theorem chat_turn_shape (r : FetchOutcome ChatBody) (w : World) :
  let w' := exec (sendMessage trim r) w in
  completion (sendMessage trim r) w = Normal tt
  /\ (Behaviour.turn_starts trim w = false -> w' = w)
  /\ (Behaviour.turn_starts trim w = true ->
      messages (app w')
      = (messages (app w)
         ++ [{| role := user; content := trim (input (chat w)) |};
             {| role := bot; content := Behaviour.reply r |}])%list
      /\ input (chat w') = ""
      /\ isLoading (chat w') = false
      /\ requests w'
         = (requests w
            ++ [{| url := "http://localhost:8000/api/v1/chat/"; method := "POST";
                   body := Json (trim (input (chat w)))
                             (map history_entry (messages (app w)))
                             "FINANCIAL_AI_PAGE" |}])%list).
Proof.
  intros w'. cells w. unfold Behaviour.turn_starts. cbn [chat input isLoading].
  split; [| split].
  - unfold sendMessage. run.
    destruct (String.eqb (trim input0) "" || isLoading0); now answer.
  - intros H. apply sendMessage_idle. cbn [chat input isLoading].
    apply andb_false_iff in H as [H | H]; apply negb_false_iff in H.
    + left. now apply String.eqb_eq.
    + now right.
  - intros H. apply andb_true_iff in H as [Hin Hl].
    apply negb_true_iff in Hin, Hl. subst isLoading0.
    remember w' as v eqn:E. subst w'. revert E.
    unfold sendMessage, Behaviour.reply. run. rewrite Hin. cbn [orb].
    destruct r as [e | [[e | data] | parsed]]; run; intros ->; cbn;
      rewrite <- app_assoc; now repeat split.
Qed.

(** X17. A chat turn writes nothing of the application but the messages,
    and nothing of the snapshot card. What it adds to the requests is
    one request when the turn starts and none otherwise, and the
    history in the body of that request has one entry for each message
    of the history before the turn, with the same text, under the role
    [user] or [assistant]. *)
Theorem chat_turn_frame (r : FetchOutcome ChatBody) (w : World) :
  let w' := exec (sendMessage trim r) w in
  transactions (app w') = transactions (app w)
  /\ summary (app w') = summary (app w)
  /\ spending (app w') = spending (app w)
  /\ trends (app w') = trends (app w)
  /\ merchants (app w') = merchants (app w)
  /\ error (app w') = error (app w)
  /\ isUploading (app w') = isUploading (app w)
  /\ isLoadingData (app w') = isLoadingData (app w)
  /\ snapshot w' = snapshot w
  /\ exists sent,
       requests w' = (requests w ++ sent)%list
       /\ List.length sent = (if Behaviour.turn_starts trim w then 1 else 0)%nat
       /\ Forall (fun q =>
                    exists text history context,
                      body q = Json text history context
                      /\ map snd history = map content (messages (app w))
                      /\ Forall (fun e => fst e = "user" \/ fst e = "assistant")
                           history)
            sent.
Proof.
  intros w'. remember w' as v eqn:E. subst w'. revert E.
  cells w. unfold sendMessage, Behaviour.turn_starts. run.
  assert (Hc : forall ms, map snd (map history_entry ms) = map content ms).
  { intros ms. rewrite map_map. now apply map_ext. }
  assert (Hr : forall ms, Forall (fun e => fst e = "user" \/ fst e = "assistant")
                            (map history_entry ms)).
  { intros ms. apply Forall_map, Forall_forall. intros [[] c] _; cbn; auto. }
  destruct (String.eqb (trim input0) "") eqn:Ein; cbn [orb negb andb].
  - intros ->. cbn. repeat (split; [reflexivity |]).
    exists []. repeat split; [now rewrite app_nil_r | constructor].
  - destruct isLoading0; cbn [negb].
    + intros ->. cbn. repeat (split; [reflexivity |]).
      exists []. repeat split; [now rewrite app_nil_r | constructor].
    + answer; intros ->; cbn; repeat (split; [reflexivity |]);
        exists [{| url := "http://localhost:8000/api/v1/chat/"; method := "POST";
                   body := Json (trim input0) (map history_entry messages0)
                             "FINANCIAL_AI_PAGE" |}];
        (split; [reflexivity |]); (split; [reflexivity |]);
        (apply Forall_cons; [| apply Forall_nil]);
        exists (trim input0), (map history_entry messages0), "FINANCIAL_AI_PAGE";
        (split; [reflexivity |]); (split; [apply Hc | apply Hr]).
Qed.

End Chat.

End AppMore.

(** ** The snapshot timer, the tabs and the base address *)

Module SnapshotTimerFacts.
Import SnapshotTimer.

Lemma effect_arms (c : Card) :
  single_slot c ->
  armed (now (timers c) + 500) (effect c)
  /\ now (timers (effect c)) = now (timers c)
  /\ fetches (effect c) = fetches c.
Proof.
  intros [Hp | [id [due [Hc Hp]]]]; unfold effect, armed.
  - destruct (cleanup c) as [timer |]; cbn; rewrite Hp; cbn;
      (split; [eexists; split; reflexivity | now split]).
  - rewrite Hc. cbn. rewrite Hp. cbn. rewrite Nat.eqb_refl. cbn.
    split; [eexists; split; reflexivity | now split].
Qed.

Lemma elapse_before_due (c : Card) (due dt : Z) :
  armed due c -> now (timers c) + dt < due ->
  armed due (elapse dt c)
  /\ now (timers (elapse dt c)) = now (timers c) + dt
  /\ fetches (elapse dt c) = fetches c.
Proof.
  intros [id [Hc Hp]] Hlt. unfold elapse, armed. cbn. rewrite Hp. cbn.
  destruct (Z.leb_spec due (now (timers c) + dt)); [lia |]. cbn.
  split; [exists id; now split | split; [reflexivity | lia]].
Qed.

Lemma elapse_after_due (c : Card) (due dt : Z) :
  armed due c -> due <= now (timers c) + dt ->
  pending (timers (elapse dt c)) = []
  /\ fetches (elapse dt c) = S (fetches c).
Proof.
  intros [id [Hc Hp]] Hle. unfold elapse. cbn. rewrite Hp. cbn.
  destruct (Z.leb_spec due (now (timers c) + dt)); [| lia]. cbn.
  split; [reflexivity | lia].
Qed.

Lemma armed_single_slot (due : Z) (c : Card) : armed due c -> single_slot c.
Proof. intros [id H]. right. now exists id, due. Qed.

Lemma step_single_slot (c : Card) (e : Event) :
  single_slot c -> single_slot (step c e).
Proof.
  intros H. destruct e as [| dt]; cbn.
  - eapply armed_single_slot. apply effect_arms, H.
  - destruct H as [Hp | [id [due [Hc Hp]]]]; unfold single_slot, elapse; cbn;
      rewrite Hp; cbn; [now left |].
    destruct (due <=? now (timers c) + dt); cbn; [now left |].
    right. now exists id, due.
Qed.

(** X18. Whatever happens to the card after it is mounted, at most one timer
    is pending, and it is the one that the next clean-up clears. *)
Theorem at_most_one_timer (t : Z) (events : list Event) :
  single_slot (run events (mounted t)).
Proof.
  assert (H : forall c, single_slot c -> single_slot (run events c)).
  { induction events as [| e events IH]; intros c Hc; [exact Hc |].
    apply IH, step_single_slot, Hc. }
  apply H. now left.
Qed.

Lemma pauses_keep_one_armed (pauses : list Z) (c : Card) :
  Forall (fun dt => 0 <= dt < 500) pauses ->
  armed (now (timers c) + 500) c ->
  let c' := run (flat_map (fun dt => [Elapsed dt; Changed]) pauses) c in
  armed (now (timers c') + 500) c' /\ fetches c' = fetches c.
Proof.
  intros HF. revert c. induction HF as [| dt pauses Hdt HF IH]; intros c Hc.
  - now split.
  - cbv zeta. cbn [flat_map app run fold_left step].
    change (fold_left step (flat_map (fun dt => [Elapsed dt; Changed]) pauses)
              (effect (elapse dt c)))
      with (run (flat_map (fun dt => [Elapsed dt; Changed]) pauses)
              (effect (elapse dt c))).
    destruct (elapse_before_due c _ dt Hc) as [H1 [H2 H3]]; [lia |].
    destruct (effect_arms (elapse dt c) (armed_single_slot _ _ H1)) as [H4 [H5 H6]].
    destruct (IH (effect (elapse dt c))) as [H7 H8].
    + now rewrite H5.
    + cbv zeta in H7, H8. split; [exact H7 |]. etransitivity; [exact H8 |].
      now rewrite H6, H3.
Qed.

(** X19. A burst of changes, each less than 500 ms after the one before,
    calls [fetchSnapshot] not at all while it lasts and once when 500 ms
    have passed after the last change; no timer is left. *)
Theorem burst_fetches_once (c : Card) (pauses : list Z) (rest : Z) :
  single_slot c -> Forall (fun dt => 0 <= dt < 500) pauses -> 500 <= rest ->
  fetches (run (burst pauses) c) = fetches c
  /\ fetches (run (burst pauses ++ [Elapsed rest]) c) = S (fetches c)
  /\ pending (timers (run (burst pauses ++ [Elapsed rest]) c)) = [].
Proof.
  intros Hc HF Hrest.
  destruct (effect_arms c Hc) as [H1 [H2 H3]].
  destruct (pauses_keep_one_armed pauses (effect c) HF) as [H4 H5];
    [now rewrite H2 |].
  unfold run, burst in *. rewrite fold_left_app. cbn [fold_left step].
  split; [congruence |].
  destruct (elapse_after_due _ _ rest H4) as [H6 H7]; [lia |].
  split; [rewrite H7; congruence | exact H6].
Qed.

End SnapshotTimerFacts.

Module ShellFacts.
Import Net.

(** X20. For every tab name exactly one of the four blocks of the content
    area is rendered, and it is the placeholder exactly when the name is
    none of dashboard, chat and history. *)
Theorem exactly_one_panel (activeTab : string) :
  (exists p, Tabs.rendered activeTab = [p])
  /\ (Tabs.rendered activeTab = [Tabs.UnderConstruction]
      <-> activeTab <> "dashboard" /\ activeTab <> "chat" /\ activeTab <> "history").
Proof.
  unfold Tabs.rendered.
  destruct (String.eqb_spec activeTab "dashboard") as [-> | H1];
    [cbn; split; [eauto | split; [discriminate | tauto]] |].
  destruct (String.eqb_spec activeTab "chat") as [-> | H2];
    [cbn; split; [eauto | split; [discriminate | tauto]] |].
  destruct (String.eqb_spec activeTab "history") as [-> | H3];
    [cbn; split; [eauto | split; [discriminate | tauto]] |].
  cbn. split; [eauto | tauto].
Qed.

Lemma strip_appended_slash (b : string) :
  ApiClient.strip_trailing_slash (b ++ "/") = b.
Proof.
  induction b as [| c b IH]; [reflexivity |].
  cbn [String.append ApiClient.strip_trailing_slash]. rewrite IH.
  now destruct b.
Qed.

Lemma strip_without_slash (b : string) :
  (forall b', b <> b' ++ "/") -> ApiClient.strip_trailing_slash b = b.
Proof.
  induction b as [| c b IH]; intros H; [reflexivity |].
  cbn [ApiClient.strip_trailing_slash]. destruct b as [| d b].
  - destruct (Ascii.eqb_spec c "/") as [-> | Hc]; [| reflexivity].
    exfalso. now apply (H "").
  - f_equal. apply IH. intros b' E. apply (H (String c b')). cbn. now rewrite E.
Qed.

Lemma append_assoc (a b c : string) : (a ++ b) ++ c = a ++ b ++ c.
Proof. induction a as [| x a IH]; cbn; [reflexivity | now rewrite IH]. Qed.

(** X21. A base address written with a slash at its end: the API client
    drops the slash, the module of the application keeps it, so that
    its URLs have two slashes before [api]. On a base address without
    such a slash, and when the variable is absent or empty, the two
    agree up to the text of the error. *)
Theorem trailing_slash_of_base (b : string) :
  ApiClient.baseUrl (Some (b ++ "/")) = inr (b ++ "/api/v1")
  /\ Config.API_BASE (Some (b ++ "/")) = inr (b ++ "//api/v1")
  /\ ((forall b', b <> b' ++ "/") ->
      b <> "" -> ApiClient.baseUrl (Some b) = Config.API_BASE (Some b))
  /\ (forall v, JS.truthy_str v = None ->
        (exists m, ApiClient.baseUrl v = inl (ErrorObj m))
        /\ (exists m, Config.API_BASE v = inl (ErrorObj m))).
Proof.
  assert (Ht : JS.truthy_str (Some (b ++ "/")) = Some (b ++ "/")) by now destruct b.
  split; [| split; [| split]].
  - unfold ApiClient.baseUrl. now rewrite Ht, strip_appended_slash.
  - unfold Config.API_BASE. rewrite Ht, append_assoc. reflexivity.
  - intros Hs Hb. unfold ApiClient.baseUrl, Config.API_BASE.
    destruct b as [| c b]; [contradiction |]. cbn [JS.truthy_str].
    now rewrite strip_without_slash.
  - intros v Hv. unfold ApiClient.baseUrl, Config.API_BASE. rewrite Hv. eauto.
Qed.

End ShellFacts.

(** ** The further properties at sample inputs *)

Module MoreInstances.
Import Model Net App.

Lemma sample_dates_parse (t : Transaction) :
  In t [Sample.rent; Sample.coffee; Sample.salary] ->
  Sample.getTime (date t) <> None.
Proof. intros [<- | [<- | [<- | []]]]; vm_compute; discriminate. Qed.

Lemma sample_dates_differ (a b : Transaction) :
  In a [Sample.rent; Sample.coffee; Sample.salary] ->
  In b [Sample.rent; Sample.coffee; Sample.salary] ->
  Sample.getTime (date a) = Sample.getTime (date b) -> a = b.
Proof.
  intros [<- | [<- | [<- | []]]] [<- | [<- | [<- | []]]] H;
    try reflexivity; vm_compute in H; discriminate H.
Qed.

(** Three sample transactions, newest first. *)
Lemma view_is_ordered_by_date_witness :
  StronglySorted (Behaviour.in_order Sample.getTime TransactionTable.desc)
    (TransactionTable.filterSort JS.toLowerCase_ascii Sample.getTime
       [Sample.rent; Sample.coffee; Sample.salary] "" TransactionTable.all
       TransactionTable.desc).
Proof.
  exact (TableOrder.view_is_ordered_by_date JS.toLowerCase_ascii Sample.getTime
           [Sample.rent; Sample.coffee; Sample.salary] "" TransactionTable.all
           TransactionTable.desc sample_dates_parse).
Defined.


(** The same three, oldest first: the first view backwards. *)
Lemma toggled_order_is_reverse_witness :
  TransactionTable.filterSort JS.toLowerCase_ascii Sample.getTime
    [Sample.rent; Sample.coffee; Sample.salary] "" TransactionTable.all
    TransactionTable.asc
  = rev [Sample.coffee; Sample.salary; Sample.rent].
Proof.
  exact (TableOrder.toggled_order_is_reverse JS.toLowerCase_ascii Sample.getTime
           [Sample.rent; Sample.coffee; Sample.salary] "" TransactionTable.all
           sample_dates_parse sample_dates_differ).
Defined.

(** Thirty-seven rows in two pages. *)
Lemma pages_make_up_the_view_witness :
  List.concat
    (map (fun k =>
            TransactionTable.paginatedTransactions JS.toLowerCase_ascii
              Sample.getTime Sample.history_table
              (TransactionTable.setCurrentPage (fun _ => Z.of_nat k)
                 TransactionTable.initial))
       [1%nat; 2%nat])
  = TransactionTable.filteredTransactions JS.toLowerCase_ascii Sample.getTime
      Sample.history_table TransactionTable.initial.
Proof.
  exact (TablePages.pages_make_up_the_view JS.toLowerCase_ascii Sample.getTime
           Sample.history_table TransactionTable.initial 25
           eq_refl eq_refl eq_refl).
Defined.

(** Page 3 of the two is empty. *)
Lemma page_length_witness :
  TransactionTable.paginatedTransactions JS.toLowerCase_ascii Sample.getTime
    Sample.history_table
    (TransactionTable.setCurrentPage (fun _ => 3) TransactionTable.initial)
  = [].
Proof.
  apply (TablePages.page_length JS.toLowerCase_ascii Sample.getTime
           Sample.history_table
           (TransactionTable.setCurrentPage (fun _ => 3) TransactionTable.initial)
           25 eq_refl eq_refl eq_refl).
  - vm_compute. discriminate.
  - reflexivity.
Defined.

(** A limit of -2 on the thirty-seven rows shows thirty-five. *)
Lemma limit_not_positive_witness :
  List.length
    (TransactionTable.paginatedTransactions JS.toLowerCase_ascii Sample.getTime
       {| TransactionTable.transactions := Sample.thirty_seven;
          TransactionTable.limit := Some (-2);
          TransactionTable.pageSize := None |}
       TransactionTable.initial)
  = 35%nat.
Proof.
  rewrite (proj2 (TablePages.limit_not_positive JS.toLowerCase_ascii Sample.getTime
                    {| TransactionTable.transactions := Sample.thirty_seven;
                       TransactionTable.limit := Some (-2);
                       TransactionTable.pageSize := None |}
                    TransactionTable.initial (-2) eq_refl ltac:(discriminate))
                 eq_refl).
  reflexivity.
Defined.

(** With the lower case of ASCII, clearing the filters shows all rows. *)
Lemma cleared_filters_show_all_witness :
  JS.toLowerCase_ascii "" = ""
  /\ Permutation
       (TransactionTable.filteredTransactions JS.toLowerCase_ascii Sample.getTime
          Sample.history_table
          (TableControls.clearFilters
             (TableControls.setSearch "coffee" TransactionTable.initial)))
       Sample.thirty_seven.
Proof.
  split; [reflexivity |].
  exact (proj1 (proj2 (TablePages.cleared_filters_show_all JS.toLowerCase_ascii
                         Sample.getTime Sample.history_table
                         (TableControls.setSearch "coffee" TransactionTable.initial)
                         eq_refl))).
Defined.

(** Thirty-seven rows in pages of 25: the controls are rendered, and the
    label of page 2 spans twelve rows. *)
Lemma page_controls_witness :
  TableControls.showPagination JS.toLowerCase_ascii Sample.getTime
    Sample.history_table TransactionTable.initial = true
  <-> 1 < TransactionTable.totalPages JS.toLowerCase_ascii Sample.getTime
            Sample.history_table TransactionTable.initial.
Proof.
  exact (proj1 (TablePages.page_controls JS.toLowerCase_ascii Sample.getTime
                  Sample.history_table TransactionTable.initial 25
                  eq_refl eq_refl)).
Defined.

Lemma sample_types (t : Transaction) :
  In t [Sample.rent; Sample.coffee; Sample.salary] ->
  type t = "credit" \/ type t = "debit".
Proof. intros [<- | [<- | [<- | []]]]; cbn; auto. Qed.

(** The three sample transactions are credits and debits. *)
Lemma type_filters_split_the_view_witness :
  Permutation
    (TransactionTable.filterSort JS.toLowerCase_ascii Sample.getTime
       [Sample.rent; Sample.coffee; Sample.salary] "" TransactionTable.all
       TransactionTable.desc)
    (TransactionTable.filterSort JS.toLowerCase_ascii Sample.getTime
       [Sample.rent; Sample.coffee; Sample.salary] "" TransactionTable.credit
       TransactionTable.desc
     ++ TransactionTable.filterSort JS.toLowerCase_ascii Sample.getTime
          [Sample.rent; Sample.coffee; Sample.salary] "" TransactionTable.debit
          TransactionTable.desc).
Proof.
  exact (proj2 (TablePages.type_filters_split_the_view JS.toLowerCase_ascii
                  Sample.getTime [Sample.rent; Sample.coffee; Sample.salary] ""
                  TransactionTable.desc) sample_types).
Defined.

Lemma rejected_not_succeeded {A : Type} (e : Thrown) :
  ~ Spec.succeeded (A := A) (Rejected e).
Proof. intros [v H]. discriminate H. Qed.

(** An upload that does not get through. *)
Lemma failed_upload_changes_no_data_witness :
  let w' :=
    exec (handleFileUpload Sample.base (Some "statement.csv")
            (Rejected (ErrorObj "Failed to fetch")) Sample.all_ok) Sample.busy in
  Spec.slices_kept (app Sample.busy) (app w')
  /\ currency (app w') = "EUR".
Proof.
  exact (proj2 (AppMore.failed_upload_changes_no_data Sample.base "statement.csv"
                  (Rejected (ErrorObj "Failed to fetch")) Sample.all_ok Sample.busy
                  (rejected_not_succeeded _))).
Defined.

(** An upload of two transactions followed by a refresh that brings
    three: the three are shown. *)
Lemma refresh_overrides_uploaded_list_witness :
  transactions
    (app (exec (handleFileUpload Sample.base (Some "statement.csv")
                  Sample.eur_upload Sample.all_ok) initialWorld))
  = [Sample.coffee; Sample.salary; Sample.rent].
Proof.
  assert (Ha : Spec.all_arrived Sample.all_ok) by (vm_compute; tauto).
  assert (Hp : Spec.all_parse Sample.all_ok) by (vm_compute; tauto).
  destruct (AppMore.refresh_overrides_uploaded_list Sample.base "statement.csv"
              (WithTransactions [Sample.coffee; Sample.salary]
                 (Some {| meta_currency := Some "EUR" |}))
              Sample.all_ok initialWorld) as [_ [_ [_ [_ [_ H]]]]].
  exact (H Ha Hp).
Defined.

(** A successful reset leaves no error. *)
Lemma reset_requests_and_frame_witness :
  error (app (exec (handleRefresh Sample.base
                      (Resolved (Ok (inr Sample.zero_summary)))) Sample.busy))
  = None.
Proof.
  destruct (AppMore.reset_requests_and_frame Sample.base
              (Resolved (Ok (inr Sample.zero_summary))) Sample.busy)
    as [_ [_ [_ [_ [_ [_ [_ H]]]]]]].
  apply H. now exists Sample.zero_summary.
Defined.

(** A chat turn that is answered. *)
Lemma chat_turn_shape_witness :
  Behaviour.turn_starts JS.trim_ascii Sample.busy = true
  /\ messages
       (app (exec (sendMessage JS.trim_ascii
                     (Resolved (Ok (inr {| response := "You spent 900." |}))))
               Sample.busy))
     = [{| role := user; content := "hello" |};
        {| role := bot; content := "hi" |};
        {| role := user; content := "Summarize my spending" |};
        {| role := bot; content := "You spent 900." |}].
Proof.
  split; [reflexivity |].
  destruct (AppMore.chat_turn_shape JS.trim_ascii
              (Resolved (Ok (inr {| response := "You spent 900." |}))) Sample.busy)
    as [_ [_ H]].
  exact (proj1 (H eq_refl)).
Defined.

(** Four changes within a second, then rest: one request. *)
Lemma burst_fetches_once_witness :
  SnapshotTimer.fetches
    (SnapshotTimer.run (SnapshotTimer.burst [100; 499; 0]
                        ++ [SnapshotTimer.Elapsed 500])
       (SnapshotTimer.mounted 0))
  = 1%nat.
Proof.
  refine (proj1 (proj2 (SnapshotTimerFacts.burst_fetches_once
                          (SnapshotTimer.mounted 0) [100; 499; 0] 500
                          (or_introl eq_refl) _ _))).
  - repeat (constructor; [lia |]). constructor.
  - discriminate.
Defined.

(** A base address without a slash at its end. *)
Lemma trailing_slash_of_base_witness :
  ApiClient.baseUrl Sample.VITE_API_BASE = Config.API_BASE Sample.VITE_API_BASE.
Proof.
  apply (ShellFacts.trailing_slash_of_base "https://api.example.com").
  - intros b' E.
    pose proof (f_equal ApiClient.strip_trailing_slash E) as S.
    rewrite ShellFacts.strip_appended_slash in S. vm_compute in S.
    subst b'. discriminate E.
  - discriminate.
Defined.

End MoreInstances.
